(** * octobus-rethinkdb: the CRUD service generator

    A shallow embedding of [src/generateCRUDservices.js] (the revision that
    knows about secondary indexes) and the properties of it that the
    specification states.

    The generator is glue between three collaborators that live outside the
    repository: the RethinkDB driver ([r], [conn]), the octobus dispatcher
    ([dispatch], [emitBefore], [emitAfter]) and Joi.  The embedding keeps the
    code of the repository as it is written and gives every collaborator an
    explicit, executable interface:

    - JavaScript data is the type [value]; thrown errors and rejected promises
      are the [Err] case of [result];
    - a ReQL query is a term of type [query], built exactly as the code chains
      the driver's methods; [.run(conn)] is the one method of the class
      [Driver];
    - promises are computations in the monad [M], which threads the
      connection's state and a trace of everything observable from outside
      (queries sent, hooks fired). *)

From Stdlib Require Import List String Ascii ZArith Lia Bool Arith.
From Stdlib Require Import DecimalString.
Import ListNotations.
Local Open Scope string_scope.
Local Open Scope list_scope.

Set Warnings "-register-all".

(** ** JavaScript values *)

(** Plain data as it travels between the dispatcher, the generator and the
    store.  Numbers are integers; an object is the list of its own properties
    in insertion order. *)
Inductive value : Type :=
| VUndefined
| VNull
| VBool (b : bool)
| VNum (n : Z)
| VStr (s : string)
| VArr (items : list value)
| VObj (fields : list (string * value)).

Inductive error : Type :=
| TypeError (msg : string)          (* raised by the language itself *)
| Error (msg : string)              (* [new Error(msg)] *)
| ErrorOf (payload : value)         (* [new Error(result)] *)
| ValidationError                   (* thrown by [Joi.attempt] *)
| ReqlError (msg : string).         (* the driver rejected the query *)

Inductive result (A : Type) : Type :=
| Ok (a : A)
| Err (e : error).
Arguments Ok {A} a.
Arguments Err {A} e.

Definition is_ok {A} (x : result A) : bool :=
  match x with Ok _ => true | Err _ => false end.

Module JS.

(** [if (v)], [!v], [a && b] *)
Definition truthy (v : value) : bool :=
  match v with
  | VUndefined | VNull => false
  | VBool b => b
  | VNum n => negb (n =? 0)%Z
  | VStr s => negb (s =? "")
  | VArr _ | VObj _ => true
  end.

(** [typeof v] *)
Definition typeof (v : value) : string :=
  match v with
  | VUndefined => "undefined"
  | VNull => "object"
  | VBool _ => "boolean"
  | VNum _ => "number"
  | VStr _ => "string"
  | VArr _ | VObj _ => "object"
  end.

(** [Array.isArray(v)] *)
Definition isArray (v : value) : bool :=
  match v with VArr _ => true | _ => false end.

Definition index_name (i : nat) : string :=
  NilEmpty.string_of_uint (Nat.to_uint i).

Fixpoint indexed (i : nat) (l : list value) : list (string * value) :=
  match l with
  | [] => []
  | x :: rest => (index_name i, x) :: indexed (S i) rest
  end.

Definition chars (s : string) : list value :=
  map (fun c => VStr (String c "")) (list_ascii_of_string s).

(** The own enumerable properties of a value, in enumeration order. *)
Definition own_props (v : value) : list (string * value) :=
  match v with
  | VObj fs => fs
  | VArr l => indexed 0 l
  | VStr s => indexed 0 (chars s)
  | _ => []
  end.

Fixpoint lookup (k : string) (fs : list (string * value)) : option value :=
  match fs with
  | [] => None
  | (k', x) :: rest => if k =? k' then Some x else lookup k rest
  end.

(** [v.k]: reading a property of [null] or [undefined] throws, a missing
    property reads as [undefined]. *)
Definition get (v : value) (k : string) : result value :=
  match v with
  | VUndefined | VNull =>
      Err (TypeError "Cannot read property of undefined or null")
  | VArr l =>
      if k =? "length" then Ok (VNum (Z.of_nat (List.length l)))
      else Ok (match lookup k (own_props v) with Some x => x | None => VUndefined end)
  | VStr s =>
      if k =? "length" then Ok (VNum (Z.of_nat (String.length s)))
      else Ok (match lookup k (own_props v) with Some x => x | None => VUndefined end)
  | _ => Ok (match lookup k (own_props v) with Some x => x | None => VUndefined end)
  end.

(** [o[k] = x] on a list of properties: an existing key keeps its place. *)
Fixpoint set (k : string) (x : value) (fs : list (string * value))
  : list (string * value) :=
  match fs with
  | [] => [(k, x)]
  | (k', y) :: rest => if k =? k' then (k, x) :: rest else (k', y) :: set k x rest
  end.

(** [Object.assign(target, source)] on lists of properties. *)
Definition assign (target source : list (string * value)) : list (string * value) :=
  fold_left (fun acc kv => set (fst kv) (snd kv) acc) source target.

(** [Object.assign({}, data, { id })] *)
Definition with_id (data id : value) : value :=
  VObj (assign (assign [] (own_props data)) [("id", id)]).

(** [_.omit(v, k)]: a fresh plain object holding every property of [v]
    but [k]. *)
Definition omit (v : value) (k : string) : value :=
  VObj (filter (fun kv => negb (fst kv =? k)) (own_props v)).

(** The properties of [_.omit(v, k)]. *)
Definition omit_props (v : value) (k : string) : list (string * value) :=
  filter (fun kv => negb (fst kv =? k)) (own_props v).

(** [a[i]] for an array [a] *)
Definition at_index (l : list value) (i : nat) : value :=
  nth i l VUndefined.

(** [s.includes('.')] *)
Fixpoint includes_char (c : ascii) (s : string) : bool :=
  match s with
  | EmptyString => false
  | String c' rest => Ascii.eqb c c' || includes_char c rest
  end.

(** [s.split('.')] *)
Fixpoint split (sep : ascii) (s : string) : list string :=
  match s with
  | EmptyString => [EmptyString]
  | String c rest =>
      if Ascii.eqb c sep then EmptyString :: split sep rest
      else match split sep rest with
           | [] => [String c EmptyString]
           | h :: t => String c h :: t
           end
  end.

(** SameValueZero on primitives; two objects or arrays met at different
    places are never the same reference. *)
Definition same_value (a b : value) : bool :=
  match a, b with
  | VUndefined, VUndefined => true
  | VNull, VNull => true
  | VBool x, VBool y => Bool.eqb x y
  | VNum x, VNum y => (x =? y)%Z
  | VStr x, VStr y => (x =? y)
  | _, _ => false
  end.

(** [a.includes(x)] for an array [a] *)
Definition includes (l : list value) (x : value) : bool :=
  existsb (same_value x) l.

(** [s.includes(sub)] for a string [s] *)
Fixpoint includes_string (sub s : string) : bool :=
  String.prefix sub s ||
  match s with
  | EmptyString => false
  | String _ rest => includes_string sub rest
  end.

(** [x.includes(name)] for whatever [x] is: an array has the method and so has
    a string; on anything else the call is a type error. *)
Definition includes_method (x : value) (name : string) : result bool :=
  match x with
  | VArr l => Ok (includes l (VStr name))
  | VStr s => Ok (includes_string name s)
  | VUndefined | VNull => Err (TypeError "Cannot read property of undefined or null")
  | _ => Err (TypeError "includes is not a function")
  end.

(** [...v]: spreading an array or a string; anything else is not iterable. *)
Definition spread (v : value) : result (list value) :=
  match v with
  | VArr l => Ok l
  | VStr s => Ok (chars s)
  | _ => Err (TypeError "value is not iterable")
  end.

End JS.

(** ** Joi *)

(** A Joi schema, taken for what validating a plain object against it does:
    the validated value comes back, converted where the schema converts and
    completed where it has defaults, or the validation error is thrown.  Every
    schema Joi can build is such a function of the object's properties, and
    [validate] gives Joi nothing but the plain object [_.omit] returns. *)
Definition joi : Type := list (string * value) -> result value.

Module Joi.

(** [Joi.attempt(plain, s, message)] for a plain object with the properties
    [plain].  The third argument of [Joi.attempt] is the message put in front
    of the error; an object given there sets no option, so the object is
    validated under the defaults of Joi, among them that a key the schema does
    not declare is not allowed. *)
Definition attempt (plain : list (string * value)) (s : joi) : result value := s plain.

(** The schema under a key of an object, for what it does with the value of
    the key. *)
Definition rule_of_key : Type := value -> result value.

(** [Joi.any()] under a key *)
Definition any : rule_of_key := fun v => Ok v.

(** [Joi.string()] under a key: a string, and not the empty one. *)
Definition text : rule_of_key :=
  fun v =>
    match v with
    | VStr s => if s =? "" then Err ValidationError else Ok v
    | _ => Err ValidationError
    end.

(** A key of an object schema: its rule and its flags. *)
Record child : Type := Child {
  rule : rule_of_key;
  required : bool;            (* [.required()] *)
  default : option value      (* [.default(value)] *)
}.

Definition declares (keys : list (string * child)) (k : string) : bool :=
  existsb (fun key => k =? fst key) keys.

(** What a key holds: to Joi a key that is absent and a key that is
    [undefined] are the same. *)
Definition held (k : string) (fs : list (string * value)) : option value :=
  match JS.lookup k fs with
  | None | Some VUndefined => None
  | Some x => Some x
  end.

(** The declared keys are gone through in the order of the schema, on a copy
    of the value: what a key holds is replaced by what its rule yields, a key
    that holds nothing is an error when it is required and gets its default
    when it has one. *)
Fixpoint children (keys : list (string * child)) (target : list (string * value))
  : result (list (string * value)) :=
  match keys with
  | [] => Ok target
  | (k, c) :: rest =>
      match held k target with
      | Some x =>
          match rule c x with
          | Ok x' => children rest (JS.set k x' target)
          | Err e => Err e
          end
      | None =>
          if required c then Err ValidationError
          else
            match default c with
            | Some d => children rest (JS.set k d target)
            | None => children rest target
            end
      end
  end.

(** [Joi.object().keys(keys)], which is also what a plain object of schemas
    stands for: the declared keys valid, and no other key. *)
Definition object (keys : list (string * child)) : joi :=
  fun fs =>
    match children keys fs with
    | Ok out =>
        if forallb (fun kv => declares keys (fst kv)) fs then Ok (VObj out)
        else Err ValidationError
    | Err e => Err e
    end.

End Joi.

(** A schema supplies no identifier when validating an object without [id]
    never yields a value with a truthy [id]. *)
Definition supplies_no_id (s : joi) : Prop :=
  forall fs data,
    JS.lookup "id" fs = None ->
    Joi.attempt fs s = Ok data ->
    exists id, JS.get data "id" = Ok id /\ JS.truthy id = false.

(** ** ReQL terms and queries *)

(** Expressions the driver builds: [r.row], a field access [t(field)], a
    literal, [r.add(...)]. *)
Inductive reql : Type :=
| RRow
| RBracket (t : reql) (field : value)
| RDatum (v : value)
| RAdd (args : list reql).

(** The driver's root object [r], as far as the generator and the callables it
    invokes reach expressions through it. *)
Record rethinkdb : Type := { row : reql }.

(** One argument of [indexCreate] after the index name. *)
Inductive index_arg : Type :=
| ArgTerm (t : reql)
| ArgTerms (ts : list reql)
| ArgOptions (o : value).

(** What a configuration may give for an index: any piece of data, or a
    callable that receives [r]. *)
Inductive index_options : Type :=
| OptValue (v : value)
| OptFunction (f : rethinkdb -> index_arg).

(** The queries the generator sends, built the way the code chains them. *)
Inductive query : Type :=
| Table (name : string)                           (* r.table(name) *)
| Get (q : query) (key : value)                   (* q.get(key) *)
| Filter (q : query) (predicate : value)          (* q.filter(predicate) *)
| OrderBy (q : query) (key : value)               (* q.orderBy(key) *)
| Skip (q : query) (n : value)                    (* q.skip(n) *)
| Limit (q : query) (n : value)                   (* q.limit(n) *)
| Pluck (q : query) (fields : list value)         (* q.pluck(...fields) *)
| Insert (q : query) (data : value)               (* q.insert(data) *)
| Update (q : query) (data options : value)       (* q.update(data, options) *)
| Delete (q : query) (options : value)            (* q.delete(options) *)
| TableList                                       (* r.tableList() *)
| TableCreate (name : string)                     (* r.tableCreate(name) *)
| IndexList (q : query)                           (* q.indexList() *)
| IndexCreate (q : query) (name : string) (args : list index_arg).
                                                  (* q.indexCreate(name, ...args) *)

(** [query.run(conn)]: the answer of the store and the connection afterwards. *)
Class Driver (conn : Type) : Type :=
  run : query -> conn -> result value * conn.

(** ** Promises *)

(** What an observer outside the generator sees, in order. *)
Inductive event : Type :=
| Ran (q : query)
| EmitBefore (name : string) (data : value)
| EmitAfter (name : string) (data : value).

Record world (conn : Type) : Type := World {
  connection : conn;
  trace : list event
}.

Arguments World {conn} connection trace.
Arguments connection {conn} w.
Arguments trace {conn} w.

Definition M (conn A : Type) : Type := world conn -> result A * world conn.

Definition ret {conn A} (a : A) : M conn A := fun w => (Ok a, w).

Definition throw {conn A} (e : error) : M conn A := fun w => (Err e, w).

(** [p.then(f)]: a rejection skips [f] and keeps what happened so far. *)
Definition bind {conn A B} (p : M conn A) (f : A -> M conn B) : M conn B :=
  fun w =>
    match p w with
    | (Ok a, w') => f a w'
    | (Err e, w') => (Err e, w')
    end.

Definition lift {conn A} (x : result A) : M conn A := fun w => (x, w).

Definition emit {conn} (e : event) : M conn unit :=
  fun w => (Ok tt, World (connection w) (trace w ++ [e])).

Definition run_query {conn} `{Driver conn} (q : query) : M conn value :=
  fun w =>
    let (answer, c) := run q (connection w) in
    (answer, World c (trace w ++ [Ran q])).

(** [Promise.all(ps)]: every promise of the list has been started; the first
    rejection, if any, is the outcome. *)
Fixpoint promise_all {conn A} (ps : list (M conn A)) : M conn (list A) :=
  match ps with
  | [] => ret []
  | p :: rest =>
      fun w =>
        let (x, w1) := p w in
        let (xs, w2) := promise_all rest w1 in
        (match x, xs with
         | Err e, _ => Err e
         | Ok _, Err e => Err e
         | Ok a, Ok l => Ok (a :: l)
         end, w2)
  end.

Definition bind_result {A B} (x : result A) (f : A -> result B) : result B :=
  match x with Ok a => f a | Err e => Err e end.

Declare Scope promise_scope.
Notation "x <- p ;; k" := (bind p (fun x => k))
  (at level 61, p at next level, right associativity) : promise_scope.
Notation "p ;; k" := (bind p (fun _ => k))
  (at level 61, right associativity) : promise_scope.
Notation "'try' x <- e ; k" := (bind_result e (fun x => k))
  (at level 61, x name, e at next level, right associativity).
Local Open Scope promise_scope.

Fixpoint map_index {A B} (f : A -> nat -> B) (i : nat) (l : list A) : list B :=
  match l with
  | [] => []
  | x :: rest => f x i :: map_index f (S i) rest
  end.

(** ** The module-level helpers *)

(** [extractTableName]: the part of the namespace after its last dot, [None]
    for the [false] the code yields when there is no dot. *)
Definition extractTableName (namespace : string) : option string :=
  if JS.includes_char "." namespace
  then Some (last (JS.split "." namespace) EmptyString)
  else None.

Definition typeof_options (options : index_options) : string :=
  match options with
  | OptValue v => JS.typeof v
  | OptFunction _ => "function"
  end.

Definition isArray_options (options : index_options) : bool :=
  match options with
  | OptValue v => JS.isArray v
  | OptFunction _ => false
  end.

(** The four tests of [processIndexOptions], in the order of the code. *)
Definition is_dotted_string (options : index_options) : bool :=
  (typeof_options options =? "string") &&
  match options with
  | OptValue (VStr s) => JS.includes_char "." s
  | _ => false
  end.

Definition is_field_list (options : index_options) : bool :=
  isArray_options options.

Definition is_plain_object (options : index_options) : bool :=
  (typeof_options options =? "object") && negb (isArray_options options).

Definition is_callable (options : index_options) : bool :=
  typeof_options options =? "function".

Definition processIndexOptions (r : rethinkdb) (options : index_options)
  : list index_arg :=
  let processedOptions := [] in
  let processedOptions :=
    if is_dotted_string options then
      match options with
      | OptValue (VStr s) =>
          processedOptions ++
          [ArgTerm (fold_left (fun acc field => RBracket acc (VStr field))
                              (JS.split "." s) (row r))]
      | _ => processedOptions
      end
    else processedOptions in
  let processedOptions :=
    if is_field_list options then
      match options with
      | OptValue (VArr fields) =>
          processedOptions ++
          [ArgTerms (map (fun field => RBracket (row r) field) fields)]
      | _ => processedOptions
      end
    else processedOptions in
  let processedOptions :=
    if is_plain_object options then
      match options with
      | OptValue v => processedOptions ++ [ArgOptions v]
      | _ => processedOptions
      end
    else processedOptions in
  let processedOptions :=
    if is_callable options then
      match options with
      | OptFunction f => processedOptions ++ [f r]
      | _ => processedOptions
      end
    else processedOptions in
  processedOptions.

(** How many of the four tests hold for a specification. *)
Definition branches_fired (options : index_options) : nat :=
  (if is_dotted_string options then 1 else 0) +
  (if is_field_list options then 1 else 0) +
  (if is_plain_object options then 1 else 0) +
  (if is_callable options then 1 else 0).

Section Bootstrap.

Context {conn : Type} `{Driver conn}.
Variable r : rethinkdb.

(** What [createIndexesIfNotExist] does with one index name: nothing when
    the listing includes the name, an [indexCreate] otherwise. *)
Definition ensureIndex (tableName : string) (existingIndexes : value)
           (index : string * index_options) : M conn value :=
  let indexName := fst index in
  included <- lift (JS.includes_method existingIndexes indexName) ;;
  if included then ret (VBool true)
  else
    let indexOptions := snd index in
    run_query (IndexCreate (Table tableName) indexName
                           (processIndexOptions r indexOptions)).

(** [indexes] lists the configuration's own keys with their values, in the
    order of [Object.keys]. *)
Definition createIndexesIfNotExist (tableName : string)
           (indexes : list (string * index_options)) : M conn (list value) :=
  existingIndexes <- run_query (IndexList (Table tableName)) ;;
  promise_all (map (ensureIndex tableName existingIndexes) indexes).

Definition createTableIfNotExists (tableName : string) : M conn value :=
  tables <- run_query TableList ;;
  included <- lift (JS.includes_method tables tableName) ;;
  if negb included then run_query (TableCreate tableName)
  else ret (VBool false).

Definition createTable (tableName : string)
           (indexes : list (string * index_options)) : M conn (list value) :=
  createTableIfNotExists tableName ;;
  createIndexesIfNotExist tableName indexes.

End Bootstrap.

(** ** The generated operations *)

Definition missing_id_message : string :=
  "You have to provide an id along with the update payload!".

Definition return_changes (v : value) : value := VObj [("returnChanges", v)].

(** [cursor.toArray()] *)
Definition toArray (cursor : value) : result value :=
  match cursor with
  | VArr _ => Ok cursor
  | _ => Err (TypeError "cursor.toArray is not a function")
  end.

Section Generator.

Context {conn : Type} `{Driver conn}.
Variable namespace : string.
Variable tableName : string.
Variable schema : option joi.

Definition getTable : query := Table tableName.

Definition paramsToQuery (params : value) : result query :=
  let params := match params with VUndefined => VObj [] | _ => params end in
  let query := getTable in
  if JS.typeof params =? "string" then Ok (Get query params)
  else
    try orderBy <- JS.get params "orderBy" ;
    try filters <- JS.get params "filters" ;
    try limit <- JS.get params "limit" ;
    try skip <- JS.get params "skip" ;
    try fields <- JS.get params "fields" ;
    let query := if JS.truthy filters then Filter query filters else query in
    let query := if JS.truthy orderBy then OrderBy query orderBy else query in
    let query := if JS.truthy skip then Skip query skip else query in
    let query := if JS.truthy limit then Limit query limit else query in
    if JS.truthy fields then
      try names <- JS.spread fields ;
      Ok (Pluck query names)
    else Ok query.

(** The callback of [doInsert], applied to the answer of the store. *)
Definition inserted (data answer : value) : result value :=
  try generated_keys <- JS.get answer "generated_keys" ;
  match generated_keys with
  | VArr keys =>
      if (List.length keys =? 1)%nat then Ok (JS.with_id data (JS.at_index keys 0))
      else
        match data with
        | VArr items =>
            Ok (VArr (map_index (fun item index => JS.with_id item (JS.at_index keys index))
                                0 items))
        | _ => Err (TypeError "data.map is not a function")
        end
  | _ => Err (ErrorOf answer)
  end.

Definition doInsert (data : value) : M conn value :=
  answer <- run_query (Insert getTable data) ;;
  lift (inserted data answer).

(** The callback shared by [update] and [doUpdate]: [fallback] is what is
    returned when [changes] is empty. *)
Definition updated (fallback answer : value) : result value :=
  try changes <- JS.get answer "changes" ;
  try length <- JS.get changes "length" ;
  if JS.truthy length then
    try first <- JS.get changes "0" ;
    JS.get first "new_val"
  else Ok fallback.

Definition doUpdate (id data : value) : M conn value :=
  answer <- run_query (Update (Get getTable id) data (return_changes (VBool true))) ;;
  lift (updated data answer).

Definition doSave (data : value) : M conn value :=
  id <- lift (JS.get data "id") ;;
  if JS.truthy id then doUpdate id data else doInsert data.

(** *** The operation map *)

(** The entry [query]: the caller's transformation of the table, run as it
    is. *)
Definition query_op (params : query -> query) : M conn value :=
  run_query (params getTable).

Definition find (params : value) : M conn value :=
  q <- lift (paramsToQuery params) ;;
  cursor <- run_query q ;;
  lift (toArray cursor).

Definition findOne (params : value) : M conn value :=
  q <- lift (paramsToQuery (VObj [("filters", params)])) ;;
  cursor <- run_query (Limit q (VNum 1)) ;;
  results <- lift (toArray cursor) ;;
  lift (JS.get results "0").

Definition findById (params : value) : M conn value :=
  run_query (Get getTable params).

Definition update (params : value) : M conn value :=
  id <- lift (JS.get params "id") ;;
  if negb (JS.truthy id) then throw (Error missing_id_message)
  else
    answer <- run_query (Update (Get getTable id) (JS.omit params "id")
                                (return_changes (VBool true))) ;;
    lift (updated params answer).

(** The last case is [Joi.attempt(_.omit(params, 'id'), schema, { convert:
    true, stripUnknown: true })]: Joi is given the properties of the payload
    without [id]. *)
Fixpoint validate (params : value) : result value :=
  match schema with
  | None => Ok params
  | Some s =>
      match params with
      | VArr items =>
          try validated <-
            (fix each (l : list value) : result (list value) :=
               match l with
               | [] => Ok []
               | item :: rest =>
                   try x <- validate item ;
                   try xs <- each rest ;
                   Ok (x :: xs)
               end) items ;
          Ok (VArr validated)
      | _ => Joi.attempt (JS.omit_props params "id") s
      end
  end.

(** [dispatch(`${namespace}.validate`, params)]: the dispatcher hands the
    payload to the [validate] entry of this map and resolves or rejects
    with its outcome. *)
Definition dispatch_validate (params : value) : M conn value :=
  lift (validate params).

Definition save (params : value) : M conn value :=
  result <-
    (data <- dispatch_validate params ;;
     emit (EmitBefore (namespace ++ ".save")%string data) ;;
     doSave data) ;;
  emit (EmitAfter (namespace ++ ".save")%string result) ;;
  ret result.

(** [dispatch(`${namespace}.save`, params)] *)
Definition create (params : value) : M conn value :=
  save params.

Definition remove (params : value) : M conn value :=
  let params := match params with VUndefined => VObj [] | _ => params end in
  q <- lift (paramsToQuery params) ;;
  load <- lift (JS.get params "load") ;;
  run_query (Delete q (return_changes load)).

(** The promise the generator returns resolves once the table and its
    indexes are in place. *)
Definition generate (r : rethinkdb) (indexes : list (string * index_options))
           (autoCreateTable : bool) : M conn unit :=
  (if autoCreateTable then createTable r tableName indexes ;; ret tt else ret tt).

End Generator.

(** ** Reading a built query *)

(** The narrowing steps of a query, innermost first, each under the name of
    the parameter that asks for it. *)
Fixpoint steps (q : query) : list (string * value) :=
  match q with
  | Filter q' predicate => steps q' ++ [("filters", predicate)]
  | OrderBy q' key => steps q' ++ [("orderBy", key)]
  | Skip q' n => steps q' ++ [("skip", n)]
  | Limit q' n => steps q' ++ [("limit", n)]
  | Pluck q' names => steps q' ++ [("fields", VArr names)]
  | _ => []
  end.

(** The query the narrowing starts from. *)
Fixpoint source (q : query) : query :=
  match q with
  | Filter q' _ | OrderBy q' _ | Skip q' _ | Limit q' _ | Pluck q' _ => source q'
  | _ => q
  end.

(** The step a parameter object asks for under a name: none when the name is
    absent, and none when its value is falsy. *)
Definition asked (params : list (string * value)) (name : string) : list (string * value) :=
  match JS.lookup name params with
  | Some x => if JS.truthy x then [(name, x)] else []
  | None => []
  end.

(** The projection a parameter object asks for: the names [fields] spreads to. *)
Definition projection (params : list (string * value)) : result (list (string * value)) :=
  match JS.lookup "fields" params with
  | Some x =>
      if JS.truthy x then try names <- JS.spread x ; Ok [("fields", VArr names)] else Ok []
  | None => Ok []
  end.

(** ** A reference store *)

(** An in-memory store that answers the generator's queries the way ReQL
    documents them, for running the operations on concrete data: tables of
    documents keyed by [id], named secondary indexes, generated keys in
    submission order, [filter] by an object as a field-by-field equality
    match, and [update] answering with the list of changes.  Whatever it does
    not cover is rejected. *)
Module MemStore.

Record table : Type := MkTable {
  docs : list value;
  indexes : list (string * list index_arg)
}.

Record db : Type := MkDb {
  tables : list (string * table);
  next_key : nat
}.

Definition empty : db := MkDb [] 0.

Fixpoint value_eqb (a b : value) {struct a} : bool :=
  match a, b with
  | VUndefined, VUndefined => true
  | VNull, VNull => true
  | VBool x, VBool y => Bool.eqb x y
  | VNum x, VNum y => (x =? y)%Z
  | VStr x, VStr y => x =? y
  | VArr l, VArr m =>
      (fix all (l m : list value) : bool :=
         match l, m with
         | [], [] => true
         | x :: l', y :: m' => value_eqb x y && all l' m'
         | _, _ => false
         end) l m
  | VObj f, VObj g =>
      (fix all (f g : list (string * value)) : bool :=
         match f, g with
         | [], [] => true
         | (k, x) :: f', (k', y) :: g' => (k =? k') && value_eqb x y && all f' g'
         | _, _ => false
         end) f g
  | _, _ => false
  end.

(** [filter(pattern)] with an object: every field of the pattern must be in
    the document, equal to it, or matching it in turn when it is an object. *)
Fixpoint matches (pattern doc : value) {struct pattern} : bool :=
  match pattern with
  | VObj ps =>
      match doc with
      | VObj fs =>
          (fix all (ps : list (string * value)) : bool :=
             match ps with
             | [] => true
             | (k, p) :: rest =>
                 match JS.lookup k fs with
                 | Some x => matches p x && all rest
                 | None => false
                 end
             end) ps
      | _ => false
      end
  | _ => value_eqb pattern doc
  end.

Definition value_leb (a b : value) : bool :=
  match a, b with
  | VNum x, VNum y => (x <=? y)%Z
  | VStr x, VStr y => String.leb x y
  | _, _ => true
  end.

Fixpoint insert_sorted (key : string) (k : value) (d : value) (l : list (value * value))
  : list (value * value) :=
  match l with
  | [] => [(k, d)]
  | (k', d') :: rest =>
      if value_leb k' k then (k', d') :: insert_sorted key k d rest
      else (k, d) :: l
  end.

(** Ascending and stable. *)
Fixpoint sort_by (key : string) (l : list value) : result (list (value * value)) :=
  match l with
  | [] => Ok []
  | d :: rest =>
      match JS.lookup key (JS.own_props d) with
      | None => Err (ReqlError "No attribute in object")
      | Some k => try sorted <- sort_by key rest ;
                  Ok (insert_sorted key k d sorted)
      end
  end.

Definition pluck (names : list value) (doc : value) : value :=
  VObj (filter (fun kv => JS.includes names (VStr (fst kv))) (JS.own_props doc)).

Definition get_table (name : string) (d : db) : result table :=
  match List.find (fun t => fst t =? name) (tables d) with
  | Some t => Ok (snd t)
  | None => Err (ReqlError "Table does not exist")
  end.

Definition put_table (name : string) (t : table) (d : db) : db :=
  MkDb (map (fun e => if fst e =? name then (name, t) else e) (tables d)) (next_key d).

Definition as_count (n : value) : result nat :=
  match n with
  | VNum z => if (0 <=? z)%Z then Ok (Z.to_nat z) else Err (ReqlError "Negative count")
  | _ => Err (ReqlError "Expected type NUMBER")
  end.

(** The documents a sequence query yields. *)
Fixpoint rows (q : query) (d : db) : result (list value) :=
  match q with
  | Table name => try t <- get_table name d ; Ok (docs t)
  | Filter q' predicate =>
      try l <- rows q' d ;
      match predicate with
      | VObj _ => Ok (filter (matches predicate) l)
      | VBool b => Ok (filter (fun _ => b) l)
      | _ => Err (ReqlError "Predicate not supported")
      end
  | OrderBy q' key =>
      try l <- rows q' d ;
      match key with
      | VStr field => try sorted <- sort_by field l ; Ok (map snd sorted)
      | _ => Err (ReqlError "Ordering not supported")
      end
  | Skip q' n => try l <- rows q' d ; try k <- as_count n ; Ok (skipn k l)
  | Limit q' n => try l <- rows q' d ; try k <- as_count n ; Ok (firstn k l)
  | Pluck q' names => try l <- rows q' d ; Ok (map (pluck names) l)
  | _ => Err (ReqlError "Expected a sequence")
  end.

Definition has_id (id : value) (doc : value) : bool :=
  match JS.lookup "id" (JS.own_props doc) with
  | Some x => value_eqb id x
  | None => false
  end.

Definition fresh_key (n : nat) : value :=
  VStr ("key-" ++ JS.index_name n)%string.

(** Inserting the documents one after the other; a document without [id]
    gets the next generated key. *)
Fixpoint insert_all (l : list value) (t : list value) (n : nat)
  : list value * nat * list value * nat :=
  match l with
  | [] => (t, n, [], 0)
  | doc :: rest =>
      match JS.lookup "id" (JS.own_props doc) with
      | Some id =>
          if existsb (has_id id) t then
            match insert_all rest t n with
            | (t', n', keys, errors) => (t', n', keys, S errors)
            end
          else insert_all rest (t ++ [doc]) n
      | None =>
          match insert_all rest (t ++ [VObj (JS.set "id" (fresh_key n) (JS.own_props doc))])
                           (S n) with
          | (t', n', keys, errors) => (t', n', fresh_key n :: keys, errors)
          end
      end
  end.

Definition count (k : string) (n : nat) : string * value := (k, VNum (Z.of_nat n)).

Definition insert (name : string) (data : value) (d : db) : result value * db :=
  match get_table name d with
  | Err e => (Err e, d)
  | Ok t =>
      let incoming := match data with VArr l => Some l | VObj _ => Some [data] | _ => None end in
      match incoming with
      | None => (Err (ReqlError "Expected type OBJECT"), d)
      | Some l =>
          if forallb (fun doc => match doc with VObj _ => true | _ => false end) l then
            match insert_all l (docs t) (next_key d) with
            | (docs', n', keys, errors) =>
                (Ok (VObj ([count "errors" errors;
                            count "inserted" (List.length l - errors)] ++
                           match keys with
                           | [] => []
                           | _ => [("generated_keys", VArr keys)]
                           end)),
                 MkDb (tables (put_table name (MkTable docs' (indexes t)) d)) n')
            end
          else (Err (ReqlError "Expected type OBJECT"), d)
      end
  end.

Definition update (name : string) (id data options : value) (d : db)
  : result value * db :=
  match get_table name d with
  | Err e => (Err e, d)
  | Ok t =>
      let reporting := match JS.lookup "returnChanges" (JS.own_props options) with
                       | Some v => JS.truthy v
                       | None => false
                       end in
      let answer (replaced unchanged skipped : nat) (changes : list value) :=
        VObj ([count "replaced" replaced; count "unchanged" unchanged;
               count "skipped" skipped] ++
              if reporting then [("changes", VArr changes)] else []) in
      match List.find (has_id id) (docs t) with
      | None => (Ok (answer 0 0 1 []), d)
      | Some old =>
          let new := VObj (JS.assign (JS.own_props old) (JS.own_props data)) in
          if value_eqb new old then (Ok (answer 0 1 0 []), d)
          else if negb (has_id id new) then
            (Err (ReqlError "Primary key cannot be changed"), d)
          else
            (Ok (answer 1 0 0 [VObj [("new_val", new); ("old_val", old)]]),
             put_table name
               (MkTable (map (fun doc => if has_id id doc then new else doc) (docs t))
                        (indexes t)) d)
      end
  end.

Definition delete (name : string) (doomed : list value) (d : db) : result value * db :=
  match get_table name d with
  | Err e => (Err e, d)
  | Ok t =>
      let keep doc := negb (existsb (value_eqb doc) doomed) in
      (Ok (VObj [count "deleted" (List.length (filter (fun doc => negb (keep doc)) (docs t)))]),
       put_table name (MkTable (filter keep (docs t)) (indexes t)) d)
  end.

Fixpoint table_of (q : query) : option string :=
  match q with
  | Table name => Some name
  | Filter q' _ | Get q' _ => table_of q'
  | _ => None
  end.

Definition exec (q : query) (d : db) : result value * db :=
  match q with
  | TableList => (Ok (VArr (map (fun t => VStr (fst t)) (tables d))), d)
  | TableCreate name =>
      if existsb (fun t => fst t =? name) (tables d)
      then (Err (ReqlError "Table already exists"), d)
      else (Ok (VObj [count "tables_created" 1]),
            MkDb (tables d ++ [(name, MkTable [] [])]) (next_key d))
  | IndexList (Table name) =>
      match get_table name d with
      | Err e => (Err e, d)
      | Ok t => (Ok (VArr (map (fun i => VStr (fst i)) (indexes t))), d)
      end
  | IndexCreate (Table name) index args =>
      match get_table name d with
      | Err e => (Err e, d)
      | Ok t =>
          if existsb (fun i => fst i =? index) (indexes t)
          then (Err (ReqlError "Index already exists"), d)
          else (Ok (VObj [count "created" 1]),
                put_table name (MkTable (docs t) (indexes t ++ [(index, args)])) d)
      end
  | Get (Table name) id =>
      match get_table name d with
      | Err e => (Err e, d)
      | Ok t => (Ok (match List.find (has_id id) (docs t) with
                     | Some doc => doc
                     | None => VNull
                     end), d)
      end
  | Insert (Table name) data => insert name data d
  | Update (Get (Table name) id) data options => update name id data options d
  | Delete q' _ =>
      match table_of q' with
      | None => (Err (ReqlError "Expected a selection"), d)
      | Some name =>
          match q' with
          | Get _ id =>
              match get_table name d with
              | Err e => (Err e, d)
              | Ok t => delete name (filter (has_id id) (docs t)) d
              end
          | _ =>
              match rows q' d with
              | Err e => (Err e, d)
              | Ok doomed => delete name doomed d
              end
          end
      end
  | Table _ | Filter _ _ | OrderBy _ _ | Skip _ _ | Limit _ _ | Pluck _ _ =>
      match rows q d with
      | Err e => (Err e, d)
      | Ok l => (Ok (VArr l), d)
      end
  | _ => (Err (ReqlError "Query not supported"), d)
  end.

#[global] Instance driver : Driver db := exec.

Definition has_index (name : string) (t : table) : bool :=
  existsb (fun i => fst i =? name) (indexes t).

Definition start (d : db) : world db := World d [].

End MemStore.

(** ** Data for the examples *)

Module Examples.

Definition r : rethinkdb := {| row := RRow |}.

Definition userSchema : joi :=
  Joi.object [("firstName", Joi.Child Joi.text true None);
              ("lastName", Joi.Child Joi.text true None)].

(** The payload of the validation example:
    [{id: 5, extra: 'x', firstName: 'A', lastName: 'B'}]. *)
Definition with_extra : value :=
  VObj [("id", VNum 5); ("extra", VStr "x"); ("firstName", VStr "A"); ("lastName", VStr "B")].

(** A schema that gives [id] a default value. *)
Definition settingsSchema : joi :=
  Joi.object [("id", Joi.Child Joi.text false (Some (VStr "u1")));
              ("lastName", Joi.Child Joi.text true None)].

Definition john : value := VObj [("firstName", VStr "John"); ("lastName", VStr "Doe")].

(** A store with an empty table [User]. *)
Definition users : MemStore.db := MemStore.MkDb [("User", MemStore.MkTable [] [])] 0.

(** A store whose table [User] holds one record. *)
Definition stored_john : value :=
  VObj [("id", VStr "u1"); ("firstName", VStr "John"); ("lastName", VStr "Doe")].

Definition one_user : MemStore.db :=
  MemStore.MkDb [("User", MemStore.MkTable [stored_john] [])] 0.

(** The table of the query-composition example. *)
Definition three : MemStore.db :=
  MemStore.MkDb
    [("T", MemStore.MkTable [VObj [("v", VNum 1)]; VObj [("v", VNum 2)]; VObj [("v", VNum 3)]]
                            [])] 0.

(** The indexes of the test suite. *)
Definition indexes : list (string * index_options) :=
  [("email", OptValue (VStr "email"));
   ("fullname", OptValue (VArr [VStr "firstName"; VStr "lastName"]));
   ("birthdateYear", OptValue (VStr "birthdate.year"));
   ("hobbies", OptValue (VObj [("multi", VBool true)]));
   ("summary",
    OptFunction (fun _r =>
      ArgTerm (RAdd [RBracket (row _r) (VStr "firstName"); RDatum (VStr "_");
                     RBracket (row _r) (VStr "lastName"); RDatum (VStr "_");
                     RBracket (row _r) (VStr "age")])))].

(** The world after a first bootstrap of an empty store. *)
Definition bootstrapped : world MemStore.db :=
  snd (generate "User" r indexes true (MemStore.start MemStore.empty)).

(** [{filters: {v: {gte: 2}}, orderBy: 'v', skip: 1, limit: 1}] *)
Definition composed : value :=
  VObj [("filters", VObj [("v", VObj [("gte", VNum 2)])]);
        ("orderBy", VStr "v"); ("skip", VNum 1); ("limit", VNum 1)].

End Examples.

(** ** Names used in the statements *)

(** The parameters [paramsToQuery] destructures. *)
Definition query_parameters : list string :=
  ["filters"; "orderBy"; "skip"; "limit"; "fields"].

(** The element-wise pass [validate] makes over an array, under a schema. *)
Fixpoint validate_each (schema : joi) (items : list value) : result (list value) :=
  match items with
  | [] => Ok []
  | item :: rest =>
      try x <- validate (Some schema) item ;
      try xs <- validate_each schema rest ;
      Ok (x :: xs)
  end.

(** * Properties *)

(** ** Objects as property lists *)

Lemma lookup_omitted (k : string) (fs : list (string * value)) :
  JS.lookup k (filter (fun kv => negb (fst kv =? k)) fs) = None.
Proof.
  induction fs as [| [k' x] fs IH]; simpl; [reflexivity |].
  destruct (k' =? k) eqn:E; simpl; [exact IH |].
  rewrite String.eqb_sym, E. exact IH.
Qed.

Lemma lookup_kept (k k' : string) (fs : list (string * value)) :
  k <> k' ->
  JS.lookup k (filter (fun kv => negb (fst kv =? k')) fs) = JS.lookup k fs.
Proof.
  intros Hne. induction fs as [| [j x] fs IH]; simpl; [reflexivity |].
  destruct (j =? k') eqn:E; simpl.
  - apply String.eqb_eq in E. subst j.
    destruct (k =? k') eqn:E'; [apply String.eqb_eq in E'; contradiction | exact IH].
  - destruct (k =? j); [reflexivity | exact IH].
Qed.

Lemma index_name_not_id (i : nat) : ("id" =? JS.index_name i) = false.
Proof.
  unfold JS.index_name.
  destruct (Nat.to_uint i) as [| d | d | d | d | d | d | d | d | d | d]; reflexivity.
Qed.

Lemma lookup_id_indexed (l : list value) (i : nat) :
  JS.lookup "id" (JS.indexed i l) = None.
Proof.
  revert i. induction l as [| x l IH]; intros i; cbn [JS.indexed JS.lookup]; [reflexivity |].
  rewrite index_name_not_id. apply IH.
Qed.

(** An array never has an [id]. *)
Lemma get_id_array (l : list value) : JS.get (VArr l) "id" = Ok VUndefined.
Proof.
  cbn [JS.get JS.own_props String.eqb Ascii.eqb Bool.eqb].
  rewrite lookup_id_indexed. reflexivity.
Qed.

Lemma set_fresh (k : string) (x : value) (fs : list (string * value)) :
  JS.lookup k fs = None -> JS.set k x fs = fs ++ [(k, x)].
Proof.
  induction fs as [| [k' y] fs IH]; simpl; [reflexivity |].
  destruct (k =? k'); [discriminate |]. intros Hn. rewrite IH by exact Hn. reflexivity.
Qed.

(** Copying the properties of an object whose keys are distinct into an empty
    object gives the same list back. *)
Lemma assign_prefix (acc fs : list (string * value)) :
  NoDup (map fst (acc ++ fs)) -> JS.assign acc fs = acc ++ fs.
Proof.
  revert acc. induction fs as [| [k x] fs IH]; intros acc Hnd; simpl.
  - rewrite app_nil_r. reflexivity.
  - unfold JS.assign in *. simpl.
    assert (Hfresh : JS.lookup k acc = None).
    { rewrite map_app in Hnd. simpl in Hnd. apply NoDup_remove_2 in Hnd.
      clear IH. induction acc as [| [k' y] acc IHa]; simpl; [reflexivity |].
      destruct (k =? k') eqn:E.
      - apply String.eqb_eq in E. subst. exfalso. apply Hnd. simpl. left. reflexivity.
      - apply IHa. intros Hin. apply Hnd. simpl. right. exact Hin. }
    rewrite set_fresh by exact Hfresh.
    rewrite IH; rewrite <- app_assoc; simpl; [reflexivity | exact Hnd].
Qed.

Lemma assign_copy (fs : list (string * value)) :
  NoDup (map fst fs) -> JS.assign [] fs = fs.
Proof. intros Hnd. apply (assign_prefix [] fs). exact Hnd. Qed.

(** ** [validate] *)

Lemma validate_without_schema (params : value) : validate None params = Ok params.
Proof. destruct params; reflexivity. Qed.

Lemma validate_single (s : joi) (params : value) :
  JS.isArray params = false ->
  validate (Some s) params = Joi.attempt (JS.omit_props params "id") s.
Proof. destruct params; simpl; intros Ha; [reflexivity .. | discriminate | reflexivity]. Qed.

Lemma validate_array_shape (s : joi) (items : list value) (data : value) :
  validate (Some s) (VArr items) = Ok data -> exists l, data = VArr l.
Proof.
  simpl. match goal with |- context [bind_result ?e _] => destruct e as [l |] end; simpl; intros Hv.
  - inversion Hv. exists l. reflexivity.
  - discriminate.
Qed.

Lemma omit_twice (v : value) (k : string) :
  JS.omit_props (JS.omit v k) k = JS.omit_props v k.
Proof.
  unfold JS.omit, JS.omit_props. cbn [JS.own_props].
  induction (JS.own_props v) as [| kv fs IH]; [reflexivity |].
  cbn [filter]. destruct (negb (fst kv =? k)) eqn:E; [| exact IH].
  cbn [filter]. rewrite E, IH. reflexivity.
Qed.

(** ** Schemas of keys *)

Lemma lookup_set_other (k k' : string) (x : value) (fs : list (string * value)) :
  k <> k' -> JS.lookup k' (JS.set k x fs) = JS.lookup k' fs.
Proof.
  intros Hne. induction fs as [| [j y] fs IH]; cbn [JS.set JS.lookup].
  - destruct (k' =? k) eqn:E; [| reflexivity].
    apply String.eqb_eq in E. subst. contradiction.
  - destruct (k =? j) eqn:E; cbn [JS.lookup].
    + apply String.eqb_eq in E. subst j.
      destruct (k' =? k) eqn:E'; [| reflexivity].
      apply String.eqb_eq in E'. subst. contradiction.
    + destruct (k' =? j); [reflexivity | exact IH].
Qed.

Lemma children_add_no_id (keys : list (string * Joi.child)) :
  (forall c, In ("id", c) keys -> Joi.default c = None) ->
  forall target out,
    JS.lookup "id" target = None ->
    Joi.children keys target = Ok out ->
    JS.lookup "id" out = None.
Proof.
  induction keys as [| [k c] keys IH]; intros Hdefault target out Hid; cbn [Joi.children].
  - intros Hc. inversion Hc. subst out. exact Hid.
  - assert (Hrest : forall c', In ("id", c') keys -> Joi.default c' = None)
      by (intros c' Hin; apply Hdefault; right; exact Hin).
    destruct (String.eqb_spec k "id") as [-> | Hk].
    + unfold Joi.held. rewrite Hid.
      destruct (Joi.required c); [discriminate |].
      rewrite (Hdefault c) by (left; reflexivity).
      apply IH; assumption.
    + destruct (Joi.held k target) as [x |].
      * destruct (Joi.rule c x) as [x' |]; [| discriminate].
        apply IH; [exact Hrest |]. rewrite lookup_set_other by exact Hk. exact Hid.
      * destruct (Joi.required c); [discriminate |].
        destruct (Joi.default c) as [d |]; apply IH; try assumption.
        rewrite lookup_set_other by exact Hk. exact Hid.
Qed.

Lemma object_supplies_no_id (keys : list (string * Joi.child)) :
  (forall c, In ("id", c) keys -> Joi.default c = None) ->
  supplies_no_id (Joi.object keys).
Proof.
  intros Hdefault fs data Hid. unfold Joi.attempt, Joi.object.
  destruct (Joi.children keys fs) as [out |] eqn:Hc; [| discriminate].
  destruct (forallb _ fs); [| discriminate].
  intros Hv. inversion Hv. exists VUndefined. split; [| reflexivity].
  cbn [JS.get JS.own_props].
  rewrite (children_add_no_id keys Hdefault fs out Hid Hc). reflexivity.
Qed.

(** C6. The payload of the example, [{id: 5, extra: 'x', firstName: 'A',
    lastName: 'B'}], does not come out of [validate] as [{firstName: 'A',
    lastName: 'B'}]: it is rejected with a validation error, as is every
    payload with a key, other than [id], that the schema of keys does not
    declare.  The options that would strip such a key are given to
    [Joi.attempt] where it takes the message of the error. *)
Theorem validate_rejects_undeclared_field :
  (forall (keys : list (string * Joi.child)) (params : value) (k : string) (x : value),
     JS.isArray params = false ->
     k <> "id" ->
     In (k, x) (JS.own_props params) ->
     Joi.declares keys k = false ->
     is_ok (validate (Some (Joi.object keys)) params) = false) /\
  validate (Some Examples.userSchema) Examples.with_extra = Err ValidationError.
Proof.
  split; [| reflexivity].
  intros keys params k x Ha Hk Hin Hd.
  rewrite (validate_single (Joi.object keys) params Ha).
  unfold Joi.attempt, Joi.object, JS.omit_props.
  set (fs := filter _ (JS.own_props params)).
  destruct (Joi.children keys fs) as [out |]; [| reflexivity].
  assert (Hall : forallb (fun kv => Joi.declares keys (fst kv)) fs = false).
  { destruct (forallb (fun kv => Joi.declares keys (fst kv)) fs) eqn:E; [| reflexivity].
    rewrite forallb_forall in E.
    assert (Hin' : In (k, x) fs).
    { unfold fs. apply filter_In. split; [exact Hin |]. simpl.
      destruct (k =? "id") eqn:E'; [apply String.eqb_eq in E'; contradiction | reflexivity]. }
    specialize (E (k, x) Hin'). simpl in E. rewrite Hd in E. discriminate. }
  rewrite Hall. reflexivity.
Qed.

(** ** The save pipeline *)

Section Pipeline.

Context {conn : Type} `{Driver conn}.
Variables (namespace tableName : string).

Lemma doInsert_trace (data : value) (w : world conn) :
  trace (snd (doInsert tableName data w)) =
  trace w ++ [Ran (Insert (Table tableName) data)].
Proof.
  unfold doInsert, bind, run_query, lift, getTable.
  destruct (run (Insert (Table tableName) data) (connection w)) as [[answer | e] c];
    reflexivity.
Qed.

Lemma doUpdate_trace (id data : value) (w : world conn) :
  trace (snd (doUpdate tableName id data w)) =
  trace w ++ [Ran (Update (Get (Table tableName) id) data (return_changes (VBool true)))].
Proof.
  unfold doUpdate, bind, run_query, lift, getTable.
  destruct (run _ (connection w)) as [[answer | e] c]; reflexivity.
Qed.

(** Persisting sends queries and fires no hook. *)
Lemma doSave_trace (data : value) (w : world conn) :
  exists queries, trace (snd (doSave tableName data w)) = trace w ++ map Ran queries.
Proof.
  unfold doSave, bind, lift.
  destruct (JS.get data "id") as [id | e].
  - destruct (JS.truthy id).
    + eexists [_]. apply doUpdate_trace.
    + eexists [_]. apply doInsert_trace.
  - exists []. simpl. rewrite app_nil_r. reflexivity.
Qed.

Lemma doSave_without_id (data : value) (w : world conn) :
  JS.get data "id" = Ok VUndefined ->
  doSave tableName data w = doInsert tableName data w.
Proof. intros Hid. unfold doSave, bind, lift. rewrite Hid. reflexivity. Qed.

Lemma save_unfolded (schema : option joi) (params : value) (w : world conn) :
  save namespace tableName schema params w =
  match validate schema params with
  | Err e => (Err e, w)
  | Ok data =>
      match doSave tableName data
                   (World (connection w)
                          (trace w ++ [EmitBefore (namespace ++ ".save")%string data])) with
      | (Ok result, persisted) =>
          (Ok result,
           World (connection persisted)
                 (trace persisted ++ [EmitAfter (namespace ++ ".save")%string result]))
      | (Err e, failed) => (Err e, failed)
      end
  end.
Proof.
  unfold save, dispatch_validate, bind, lift, emit, ret.
  destruct (validate schema params) as [data | e]; [| reflexivity].
  simpl. destruct (doSave tableName data _) as [[result | e] w']; reflexivity.
Qed.

End Pipeline.

(** C2. In a [save], the before-hook fires once, with the validated payload,
    ahead of every query; the after-hook fires once, with the result of the
    persistence step, behind every query and only when that step succeeded;
    when validation fails nothing happens at all. *)
Theorem save_hook_firing :
  forall (conn : Type) (D : Driver conn) (namespace tableName : string)
         (schema : option joi) (params : value) (w : world conn),
    let name := (namespace ++ ".save")%string in
    match validate schema params with
    | Err e => save namespace tableName schema params w = (Err e, w)
    | Ok data =>
        let before := World (connection w) (trace w ++ [EmitBefore name data]) in
        exists queries outcome final,
          save namespace tableName schema params w = (outcome, final) /\
          outcome = fst (doSave tableName data before) /\
          trace final =
          trace w ++ [EmitBefore name data] ++ map Ran queries ++
          match outcome with
          | Ok result => [EmitAfter name result]
          | Err _ => []
          end
    end.
Proof.
  intros conn D namespace tableName schema params w name.
  rewrite save_unfolded. destruct (validate schema params) as [data | e]; [| reflexivity].
  intros before. fold name. fold before.
  destruct (doSave_trace tableName data before) as [queries Hq].
  exists queries.
  destruct (doSave tableName data before) as [[result | e] w'] eqn:Hs; simpl in Hq.
  - eexists; eexists. split; [reflexivity |]. split; [reflexivity |].
    simpl. rewrite Hq. unfold before. simpl. rewrite <- !app_assoc. reflexivity.
  - eexists; eexists. split; [reflexivity |]. split; [reflexivity |].
    rewrite Hq. unfold before. simpl. rewrite <- !app_assoc, app_nil_r. reflexivity.
Qed.

(** With a schema that gives [id] a default value, a payload without any
    identifier is saved by an update. *)
Lemma save_under_default_id_updates :
  trace (snd (save "entity.User" "User" (Some Examples.settingsSchema)
                   (VObj [("lastName", VStr "Donovan")])
                   (MemStore.start Examples.one_user)))
  = [EmitBefore "entity.User.save" (VObj [("lastName", VStr "Donovan"); ("id", VStr "u1")]);
     Ran (Update (Get (Table "User") (VStr "u1"))
                 (VObj [("lastName", VStr "Donovan"); ("id", VStr "u1")])
                 (return_changes (VBool true)));
     EmitAfter "entity.User.save"
               (VObj [("id", VStr "u1"); ("firstName", VStr "John");
                      ("lastName", VStr "Donovan")])].
Proof. reflexivity. Qed.

(** C3, as the code has it.  With a schema configured, the identifier a
    payload carries has no part in the insert-or-update decision: the save of
    a payload is the save of the payload without its [id].  Under a schema
    that supplies no identifier of its own, as every schema of keys without a
    default value for [id], the decision is therefore always the insert: the
    one query a [save] sends is an insert of the validated payload. *)
Theorem save_with_schema_inserts :
  (forall (conn : Type) (D : Driver conn) (namespace tableName : string)
          (s : joi) (params : value) (w : world conn),
     JS.isArray params = false ->
     save namespace tableName (Some s) params w
     = save namespace tableName (Some s) (JS.omit params "id") w) /\
  (forall (conn : Type) (D : Driver conn) (namespace tableName : string) (s : joi),
     supplies_no_id s ->
     forall (params : value) (w : world conn),
       let name := (namespace ++ ".save")%string in
       match validate (Some s) params with
       | Err e => save namespace tableName (Some s) params w = (Err e, w)
       | Ok data =>
           (forall w0 : world conn, doSave tableName data w0 = doInsert tableName data w0) /\
           exists outcome final,
             save namespace tableName (Some s) params w = (outcome, final) /\
             trace final =
             trace w ++ [EmitBefore name data; Ran (Insert (Table tableName) data)] ++
             match outcome with
             | Ok result => [EmitAfter name result]
             | Err _ => []
             end
       end) /\
  (forall keys : list (string * Joi.child),
     (forall c, In ("id", c) keys -> Joi.default c = None) ->
     supplies_no_id (Joi.object keys)).
Proof.
  split; [| split].
  - intros conn D namespace tableName s params w Ha.
    rewrite !save_unfolded, !validate_single by (exact Ha || reflexivity).
    rewrite omit_twice. reflexivity.
  - intros conn D namespace tableName s Hs params w name.
    rewrite save_unfolded. destruct (validate (Some s) params) as [data | e] eqn:Hv;
      [| reflexivity].
    assert (Hinsert : forall w0 : world conn,
               doSave tableName data w0 = doInsert tableName data w0).
    { intros w0. destruct (JS.isArray params) eqn:Ha.
      - destruct params; try discriminate.
        destruct (validate_array_shape _ _ _ Hv) as [l ->].
        apply doSave_without_id. apply get_id_array.
      - rewrite (validate_single s params Ha) in Hv. unfold JS.omit_props in Hv.
        destruct (Hs _ data (lookup_omitted "id" (JS.own_props params)) Hv)
          as [id [Hid Hfalsy]].
        unfold doSave, bind, lift. rewrite Hid, Hfalsy. reflexivity. }
    split; [exact Hinsert |].
    fold name. rewrite Hinsert.
    match goal with |- context [doInsert tableName data ?b] =>
      pose proof (doInsert_trace tableName data b) as Ht;
      destruct (doInsert tableName data b) as [[result | e] w'] end; simpl in Ht.
    + eexists; eexists. split; [reflexivity |]. simpl. rewrite Ht.
      rewrite <- !app_assoc. reflexivity.
    + eexists; eexists. split; [reflexivity |]. rewrite Ht. simpl.
      rewrite <- !app_assoc. reflexivity.
  - exact object_supplies_no_id.
Qed.

Lemma save_with_schema_inserts_witness :
  exists outcome final,
    save "entity.User" "User" (Some Examples.userSchema) Examples.stored_john
         (MemStore.start Examples.one_user) = (outcome, final) /\
    trace final =
    [] ++ [EmitBefore "entity.User.save" Examples.john;
           Ran (Insert (Table "User") Examples.john)] ++
    match outcome with
    | Ok result => [EmitAfter "entity.User.save" result]
    | Err _ => []
    end.
Proof.
  assert (Hs : supplies_no_id Examples.userSchema).
  { apply (proj2 (proj2 save_with_schema_inserts)).
    intros c [Heq | [Heq | []]]; discriminate Heq. }
  exact (proj2 (proj1 (proj2 save_with_schema_inserts) MemStore.db MemStore.driver
                      "entity.User" "User" Examples.userSchema Hs
                      Examples.stored_john (MemStore.start Examples.one_user))).
Defined.

(** A payload that carries an identifier, saved under a schema: the
    identifier is dropped by the validation, the record is inserted under a
    fresh key, and both hooks fire around the insert. *)
Example save_under_schema_drops_the_id :
  save "entity.User" "User" (Some Examples.userSchema) Examples.stored_john
       (MemStore.start Examples.one_user)
  = (Ok (VObj [("firstName", VStr "John"); ("lastName", VStr "Doe"); ("id", VStr "key-0")]),
     World (MemStore.MkDb
              [("User",
                MemStore.MkTable
                  [Examples.stored_john;
                   VObj [("firstName", VStr "John"); ("lastName", VStr "Doe");
                         ("id", VStr "key-0")]] [])] 1)
           [EmitBefore "entity.User.save" Examples.john;
            Ran (Insert (Table "User") Examples.john);
            EmitAfter "entity.User.save"
                      (VObj [("firstName", VStr "John"); ("lastName", VStr "Doe");
                             ("id", VStr "key-0")])]).
Proof. reflexivity. Qed.

(** A payload the schema rejects: no hook fires and no query is sent. *)
Example save_rejected_by_schema :
  save "entity.User" "User" (Some Examples.userSchema) (VObj [("firstName", VStr "John")])
       (MemStore.start Examples.one_user)
  = (Err ValidationError, MemStore.start Examples.one_user).
Proof. reflexivity. Qed.

(** A store that rejects the insert: the before-hook has fired, the after-hook
    has not. *)
Example save_rejected_by_store :
  save "entity.User" "Missing" None Examples.john (MemStore.start Examples.one_user)
  = (Err (ReqlError "Table does not exist"),
     World Examples.one_user
           [EmitBefore "entity.User.save" Examples.john;
            Ran (Insert (Table "Missing") Examples.john)]).
Proof. reflexivity. Qed.

(** ** Inserting *)

Lemma map_index_length {A B : Type} (f : A -> nat -> B) (i : nat) (l : list A) :
  List.length (map_index f i l) = List.length l.
Proof. revert i. induction l as [| x l IH]; intros i; simpl; [| rewrite IH]; reflexivity. Qed.

Lemma map_index_nth {A B : Type} (f : A -> nat -> B) (l : list A) (i n : nat) (a : A) (b : B) :
  (n < List.length l)%nat ->
  nth n (map_index f i l) b = f (nth n l a) (i + n)%nat.
Proof.
  revert i n. induction l as [| x l IH]; intros i n Hn; simpl in *; [lia |].
  destruct n as [| n].
  - rewrite Nat.add_0_r. reflexivity.
  - rewrite (IH (S i) n) by lia. f_equal. lia.
Qed.

(** A batch of any size other than one comes back position by position. *)
Lemma inserted_batch_positional (items keys : list value) (answer : value) :
  JS.get answer "generated_keys" = Ok (VArr keys) ->
  List.length keys <> 1%nat ->
  exists records,
    inserted (VArr items) answer = Ok (VArr records) /\
    List.length records = List.length items /\
    forall i, (i < List.length items)%nat ->
      nth i records VUndefined = JS.with_id (nth i items VUndefined) (JS.at_index keys i).
Proof.
  intros Hk Hlen. unfold inserted. rewrite Hk. simpl.
  destruct (List.length keys =? 1)%nat eqn:E; [apply Nat.eqb_eq in E; contradiction |].
  eexists. split; [reflexivity |]. split; [apply map_index_length |].
  intros i Hi. rewrite (map_index_nth _ items 0 i VUndefined) by exact Hi. reflexivity.
Qed.

(** A record whose keys are distinct and which has no [id] gets it appended. *)
Lemma with_id_appends (fields : list (string * value)) (id : value) :
  NoDup (map fst fields) -> JS.lookup "id" fields = None ->
  JS.with_id (VObj fields) id = VObj (fields ++ [("id", id)]).
Proof.
  intros Hnd Hid. unfold JS.with_id. cbn [JS.own_props].
  rewrite assign_copy by exact Hnd. unfold JS.assign. cbn [fold_left fst snd].
  rewrite set_fresh by exact Hid. reflexivity.
Qed.

(** C1. A batch holding a single record does not come back as an array: the
    one generated key makes [doInsert] treat the batch itself as the record,
    so the answer is an object with the record under the key [0] and the
    identifier beside it. *)
Theorem singleton_batch_is_not_positional :
  (forall item key : value,
     inserted (VArr [item]) (VObj [("generated_keys", VArr [key])])
     = Ok (VObj [("0", item); ("id", key)])) /\
  fst (save "entity.User" "User" None (VArr [Examples.john]) (MemStore.start Examples.users))
  = Ok (VObj [("0", Examples.john); ("id", VStr "key-0")]).
Proof. split; [intros item key |]; reflexivity. Qed.

(** ** Updating *)

Section Updates.

Context {conn : Type} `{Driver conn}.
Variable tableName : string.

Lemma updated_without_changes (fallback answer : value) :
  JS.get answer "changes" = Ok (VArr []) -> updated fallback answer = Ok fallback.
Proof. intros Hc. unfold updated. rewrite Hc. reflexivity. Qed.

Lemma update_rejects (params id : value) (w : world conn) :
  JS.get params "id" = Ok id -> JS.truthy id = false ->
  update tableName params w = (Err (Error missing_id_message), w).
Proof. intros Hid Hf. unfold update, bind, lift, throw. rewrite Hid, Hf. reflexivity. Qed.

End Updates.

(** C5. When the store answers an update with an empty list of changes, the
    [update] operation returns the payload it was given, and so does the
    update branch of [save]. *)
Theorem noop_update_returns_payload :
  forall (conn : Type) (D : Driver conn) (namespace tableName : string)
         (params id : value) (w : world conn),
    JS.get params "id" = Ok id ->
    JS.truthy id = true ->
    (forall answer c,
       run (Update (Get (Table tableName) id) (JS.omit params "id")
                   (return_changes (VBool true))) (connection w) = (Ok answer, c) ->
       JS.get answer "changes" = Ok (VArr []) ->
       fst (update tableName params w) = Ok params) /\
    (forall answer c,
       run (Update (Get (Table tableName) id) params
                   (return_changes (VBool true))) (connection w) = (Ok answer, c) ->
       JS.get answer "changes" = Ok (VArr []) ->
       fst (doUpdate tableName id params w) = Ok params /\
       fst (save namespace tableName None params w) = Ok params).
Proof.
  intros conn D namespace tableName params id w Hid Ht. split.
  - intros answer c Hrun Hc.
    unfold update, bind, lift, run_query, getTable. rewrite Hid, Ht. simpl.
    rewrite Hrun. simpl. apply updated_without_changes. exact Hc.
  - intros answer c Hrun Hc.
    assert (Hu : forall tr, doUpdate tableName id params (World (connection w) tr)
                            = (Ok params,
                               World c (tr ++ [Ran (Update (Get (Table tableName) id) params
                                                           (return_changes (VBool true)))]))).
    { intros tr. unfold doUpdate, bind, lift, run_query, getTable. simpl. rewrite Hrun.
      rewrite (updated_without_changes params answer Hc). reflexivity. }
    split.
    + destruct w as [c0 tr]. simpl in *. rewrite Hu. reflexivity.
    + rewrite save_unfolded, validate_without_schema.
      unfold doSave, bind, lift. rewrite Hid, Ht, Hu. reflexivity.
Qed.

Lemma noop_update_returns_payload_witness :
  fst (update "User" Examples.stored_john (MemStore.start Examples.one_user))
  = Ok Examples.stored_john /\
  fst (save "entity.User" "User" None Examples.stored_john (MemStore.start Examples.one_user))
  = Ok Examples.stored_john.
Proof.
  destruct (noop_update_returns_payload MemStore.db MemStore.driver "entity.User" "User"
              Examples.stored_john (VStr "u1") (MemStore.start Examples.one_user)
              eq_refl eq_refl) as [Hupdate Hsave].
  split.
  - eapply Hupdate; reflexivity.
  - eapply Hsave; reflexivity.
Defined.

(** C7. An [update] whose payload has no [id] fails with the
    missing-identifier error and leaves the world as it was: no query has been
    sent and the connection is untouched. *)
Theorem update_without_id_rejects :
  forall (conn : Type) (D : Driver conn) (tableName : string)
         (fields : list (string * value)) (w : world conn),
    JS.lookup "id" fields = None ->
    update tableName (VObj fields) w = (Err (Error missing_id_message), w).
Proof.
  intros conn D tableName fields w Hid.
  apply (update_rejects tableName (VObj fields) VUndefined w); [| reflexivity].
  cbn [JS.get JS.own_props]. rewrite Hid. reflexivity.
Qed.

Lemma update_without_id_rejects_witness :
  update "User" (VObj [("firstName", VStr "A")]) (MemStore.start Examples.one_user)
  = (Err (Error missing_id_message), MemStore.start Examples.one_user).
Proof.
  apply (update_without_id_rejects MemStore.db MemStore.driver "User"
           [("firstName", VStr "A")] (MemStore.start Examples.one_user)).
  reflexivity.
Defined.

(** C10. An [update] whose payload has an [id] that is falsy, such as [0], the
    empty string, [false] or [null], fails with the missing-identifier error
    before any query is sent. *)
Theorem update_with_falsy_id_rejects :
  forall (conn : Type) (D : Driver conn) (tableName : string)
         (fields : list (string * value)) (id : value) (w : world conn),
    JS.lookup "id" fields = Some id ->
    In id [VNum 0; VStr ""; VBool false; VNull; VUndefined] \/ JS.truthy id = false ->
    update tableName (VObj fields) w = (Err (Error missing_id_message), w).
Proof.
  intros conn D tableName fields id w Hid Hfalsy.
  apply (update_rejects tableName (VObj fields) id w).
  - cbn [JS.get JS.own_props]. rewrite Hid. reflexivity.
  - destruct Hfalsy as [Hin | Hf]; [| exact Hf].
    simpl in Hin. repeat (destruct Hin as [<- | Hin]; [reflexivity |]). contradiction.
Qed.

Lemma update_with_falsy_id_rejects_witness :
  update "User" (VObj [("id", VNum 0); ("firstName", VStr "A")])
         (MemStore.start Examples.one_user)
  = (Err (Error missing_id_message), MemStore.start Examples.one_user).
Proof.
  apply (update_with_falsy_id_rejects MemStore.db MemStore.driver "User"
           [("id", VNum 0); ("firstName", VStr "A")] (VNum 0)
           (MemStore.start Examples.one_user)).
  - reflexivity.
  - left. simpl. left. reflexivity.
Defined.

(** ** The query builder *)

(** C4, as the code has it.  The query built from a parameter object starts
    from the whole table and applies, in this order, the filter, the ordering,
    the skip, the limit and the projection, each only when the object has the
    parameter with a truthy value.  Run against the records [{v:1}], [{v:2}],
    [{v:3}], the parameters [{filters: {v: {gte: 2}}, orderBy: 'v', skip: 1,
    limit: 1}] find nothing: an object given as filter is matched field by
    field for equality, and no record has the object [{gte: 2}] as its [v].
    With the filter left out, the same ordering, skip and limit find the
    record [{v:2}]. *)
Theorem paramsToQuery_order :
  (forall (tableName : string) (params : list (string * value)),
     match projection params with
     | Err e => paramsToQuery tableName (VObj params) = Err e
     | Ok projected =>
         exists q,
           paramsToQuery tableName (VObj params) = Ok q /\
           source q = Table tableName /\
           steps q = asked params "filters" ++ asked params "orderBy" ++
                     asked params "skip" ++ asked params "limit" ++ projected
     end) /\
  fst (find "T" Examples.composed (MemStore.start Examples.three)) = Ok (VArr []) /\
  fst (find "T" (VObj [("orderBy", VStr "v"); ("skip", VNum 1); ("limit", VNum 1)])
            (MemStore.start Examples.three))
  = Ok (VArr [VObj [("v", VNum 2)]]).
Proof.
  split; [| split; reflexivity].
  intros tableName params.
  unfold paramsToQuery, projection, asked, getTable.
  cbn [JS.typeof String.eqb Ascii.eqb Bool.eqb JS.get JS.own_props bind_result].
  destruct (JS.lookup "fields" params) as [fields |];
    [destruct (JS.truthy fields) eqn:Efields; [destruct (JS.spread fields) as [names | e] |] |];
    cbn [bind_result JS.truthy];
    (destruct (JS.lookup "filters" params) as [filters |];
     [destruct (JS.truthy filters) eqn:Efilters |]);
    (destruct (JS.lookup "orderBy" params) as [orderBy |];
     [destruct (JS.truthy orderBy) eqn:EorderBy |]);
    (destruct (JS.lookup "skip" params) as [skip |];
     [destruct (JS.truthy skip) eqn:Eskip |]);
    (destruct (JS.lookup "limit" params) as [limit |];
     [destruct (JS.truthy limit) eqn:Elimit |]);
    cbn [JS.truthy];
    rewrite ?Efields, ?Efilters, ?EorderBy, ?Eskip, ?Elimit;
    cbn [bind_result];
    try reflexivity;
    (eexists; split; [reflexivity | split; reflexivity]).
Qed.

(** The example of the specification, as the specification has it. *)
Lemma composed_query_finds_nothing :
  paramsToQuery "T" Examples.composed
  = Ok (Limit (Skip (OrderBy (Filter (Table "T") (VObj [("v", VObj [("gte", VNum 2)])]))
                             (VStr "v")) (VNum 1)) (VNum 1)) /\
  fst (find "T" Examples.composed (MemStore.start Examples.three)) = Ok (VArr []) /\
  fst (find "T" Examples.composed (MemStore.start Examples.three))
  <> Ok (VArr [VObj [("v", VNum 3)]]).
Proof. split; [reflexivity | split; [reflexivity | discriminate]]. Qed.

(** ** Index specifications *)

(** A string without a dot fires none of the four branches and is no error:
    the list of arguments is empty, and [indexCreate] is called with the name
    alone. *)
Lemma undotted_string_fires_no_branch :
  branches_fired (OptValue (VStr "email")) <> 1%nat /\
  processIndexOptions Examples.r (OptValue (VStr "email")) = [] /\
  snd (createIndexesIfNotExist Examples.r "User" [("email", OptValue (VStr "email"))]
                               (MemStore.start Examples.users))
  = World (MemStore.MkDb [("User", MemStore.MkTable [] [("email", [])])] 0)
          [Ran (IndexList (Table "User")); Ran (IndexCreate (Table "User") "email" [])].
Proof. split; [discriminate | split; reflexivity]. Qed.

(** C8, as the code has it.  For every index specification at most one of the
    four branches fires.  When one fires the arguments are the one it pushes:
    the chain of field accesses of a dotted string, the accessors of a field
    list, the object itself, the result of the callable.  When none fires, as
    for a string without a dot, the arguments are empty and nothing fails. *)
Theorem processIndexOptions_branches :
  forall (r : rethinkdb) (options : index_options),
    (branches_fired options <= 1)%nat /\
    List.length (processIndexOptions r options) = branches_fired options /\
    processIndexOptions r options =
    match options with
    | OptValue (VStr s) =>
        if JS.includes_char "." s
        then [ArgTerm (fold_left (fun acc field => RBracket acc (VStr field))
                                 (JS.split "." s) (row r))]
        else []
    | OptValue (VArr fields) =>
        [ArgTerms (map (fun field => RBracket (row r) field) fields)]
    | OptValue (VObj fields) => [ArgOptions (VObj fields)]
    | OptValue VNull => [ArgOptions VNull]
    | OptValue _ => []
    | OptFunction f => [f r]
    end.
Proof.
  intros r [v | f]; [destruct v as [| | b | n | s | items | fields] |];
    unfold processIndexOptions, branches_fired, is_dotted_string, is_field_list,
      is_plain_object, is_callable;
    cbn [typeof_options isArray_options JS.typeof JS.isArray String.eqb Ascii.eqb Bool.eqb
         andb negb];
    try (destruct (JS.includes_char "." s));
    repeat split; simpl; try reflexivity; try lia.
Qed.

(** ** Bootstrap on the reference store *)

Section Skipping.

Context {conn : Type} `{Driver conn}.
Variables (r : rethinkdb) (tableName : string).

Lemma ensureIndex_listed (existing : list value) (index : string * index_options)
      (w : world conn) :
  ensureIndex r tableName (VArr existing) index w
  = if JS.includes existing (VStr (fst index)) then (Ok (VBool true), w)
    else run_query (IndexCreate (Table tableName) (fst index)
                                (processIndexOptions r (snd index))) w.
Proof.
  unfold ensureIndex, bind, lift. cbn [JS.includes_method].
  destruct (JS.includes existing (VStr (fst index))); reflexivity.
Qed.

Lemma ensure_nothing (existing : list value) (l : list (string * index_options))
      (w : world conn) :
  (forall n, In n (map fst l) -> JS.includes existing (VStr n) = true) ->
  promise_all (map (ensureIndex r tableName (VArr existing)) l) w
  = (Ok (map (fun _ => VBool true) l), w).
Proof.
  induction l as [| index l IH]; intros Hall; [reflexivity |].
  cbn [map promise_all]. rewrite ensureIndex_listed.
  rewrite (Hall (fst index)) by (simpl; left; reflexivity).
  rewrite IH by (intros n Hn; apply Hall; simpl; right; exact Hn).
  reflexivity.
Qed.

(** Whatever the store: when it lists the table among its tables and every
    configured index among the indexes of the table, the bootstrap sends the
    two listings and nothing else. *)
Lemma createTable_skips_present (indexes : list (string * index_options)) (w : world conn)
      (tables existing : list value) (c1 c2 : conn) :
  run TableList (connection w) = (Ok (VArr tables), c1) ->
  JS.includes tables (VStr tableName) = true ->
  run (IndexList (Table tableName)) c1 = (Ok (VArr existing), c2) ->
  (forall n, In n (map fst indexes) -> JS.includes existing (VStr n) = true) ->
  createTable r tableName indexes w
  = (Ok (map (fun _ => VBool true) indexes),
     World c2 (trace w ++ [Ran TableList; Ran (IndexList (Table tableName))])).
Proof.
  intros Htables Htable Hindexes Hall.
  unfold createTable, createTableIfNotExists, createIndexesIfNotExist, bind, run_query, lift.
  rewrite Htables. cbn [JS.includes_method]. rewrite Htable.
  cbn [negb ret connection trace]. rewrite Hindexes.
  rewrite <- app_assoc. cbn [app].
  apply ensure_nothing. exact Hall.
Qed.

End Skipping.

Module BootstrapFacts.

Import MemStore.

Lemma includes_names {B : Type} (l : list (string * B)) (n : string) :
  JS.includes (map (fun e => VStr (fst e)) l) (VStr n) = existsb (fun e => fst e =? n) l.
Proof.
  unfold JS.includes. induction l as [| e l IH]; simpl; [reflexivity |].
  rewrite IH, (String.eqb_sym n (fst e)). reflexivity.
Qed.

Lemma get_table_listed (n : string) (d : db) (t : table) :
  get_table n d = Ok t -> existsb (fun e => fst e =? n) (tables d) = true.
Proof.
  unfold get_table. induction (tables d) as [| e l IH]; simpl; [discriminate |].
  destruct (fst e =? n); simpl; [reflexivity | exact IH].
Qed.

Lemma listed_get_table (n : string) (d : db) :
  existsb (fun e => fst e =? n) (tables d) = true -> exists t, get_table n d = Ok t.
Proof.
  unfold get_table. induction (tables d) as [| e l IH]; simpl; [discriminate |].
  destruct (fst e =? n); simpl; [intros _; exists (snd e); reflexivity | exact IH].
Qed.

Lemma get_put_table (n : string) (d : db) (t t' : table) :
  get_table n d = Ok t -> get_table n (put_table n t' d) = Ok t'.
Proof.
  unfold get_table, put_table. simpl. induction (tables d) as [| e l IH]; simpl; [discriminate |].
  destruct (fst e =? n) eqn:E; simpl.
  - rewrite String.eqb_refl. reflexivity.
  - rewrite E. exact IH.
Qed.

Lemma get_created_table (n : string) (d : db) :
  existsb (fun e => fst e =? n) (tables d) = false ->
  get_table n (MkDb (tables d ++ [(n, MkTable [] [])]) (next_key d)) = Ok (MkTable [] []).
Proof.
  unfold get_table. simpl. induction (tables d) as [| e l IH]; simpl.
  - rewrite String.eqb_refl. reflexivity.
  - destruct (fst e =? n); simpl; [discriminate | exact IH].
Qed.

Lemma run_query_exec (q : query) (w : world db) :
  run_query q w =
  (fst (exec q (connection w)), World (snd (exec q (connection w))) (trace w ++ [Ran q])).
Proof.
  unfold run_query, run, driver. destruct (exec q (connection w)). reflexivity.
Qed.

Section Indexes.

Variables (r : rethinkdb) (tbl : string) (existing : list value).

Lemma ensure_one (index : string * index_options) (w : world db) (t : table) :
  get_table tbl (connection w) = Ok t ->
  (forall n, JS.includes existing (VStr n) = true -> has_index n t = true) ->
  exists t',
    get_table tbl (connection (snd (ensureIndex r tbl (VArr existing) index w))) = Ok t' /\
    (forall n, has_index n t = true -> has_index n t' = true) /\
    (is_ok (fst (ensureIndex r tbl (VArr existing) index w)) = true -> has_index (fst index) t' = true).
Proof.
  intros Ht Hex. rewrite ensureIndex_listed.
  destruct (JS.includes existing (VStr (fst index))) eqn:Ei.
  - exists t. simpl. split; [exact Ht |]. split; [auto |]. intros _. apply Hex. exact Ei.
  - rewrite run_query_exec. simpl. rewrite Ht.
    destruct (existsb (fun i => fst i =? fst index) (indexes t)) eqn:Eh; simpl.
    + exists t. split; [exact Ht |]. split; [auto | discriminate].
    + eexists. split; [apply (get_put_table tbl (connection w) t); exact Ht |].
      unfold has_index. simpl. split.
      * intros n Hn. rewrite existsb_app, Hn. reflexivity.
      * intros _. rewrite existsb_app. simpl. rewrite String.eqb_refl.
        rewrite orb_true_r. reflexivity.
Qed.

Lemma ensure_all (l : list (string * index_options)) :
  forall (w : world db) (t : table),
    get_table tbl (connection w) = Ok t ->
    (forall n, JS.includes existing (VStr n) = true -> has_index n t = true) ->
    exists t',
      get_table tbl (connection (snd (promise_all (map (ensureIndex r tbl (VArr existing)) l) w))) = Ok t' /\
      (forall n, has_index n t = true -> has_index n t' = true) /\
      (is_ok (fst (promise_all (map (ensureIndex r tbl (VArr existing)) l) w)) = true ->
       forall n, In n (map fst l) -> has_index n t' = true).
Proof.
  induction l as [| index l IH]; intros w t Ht Hex.
  - exists t. simpl. split; [exact Ht |]. split; [auto |]. intros _ n [].
  - destruct (ensure_one index w t Ht Hex) as [t1 [Ht1 [Hmono1 Hone]]].
    cbn [map promise_all].
    destruct (ensureIndex r tbl (VArr existing) index w) as [x w1] eqn:Ew. simpl in Ht1, Hone.
    assert (Hex1 : forall n, JS.includes existing (VStr n) = true -> has_index n t1 = true)
      by (intros n Hn; apply Hmono1, Hex, Hn).
    destruct (IH w1 t1 Ht1 Hex1) as [t2 [Ht2 [Hmono2 Hall]]].
    destruct (promise_all (map (ensureIndex r tbl (VArr existing)) l) w1) as [xs w2] eqn:Ep. simpl in Ht2, Hall.
    exists t2. simpl. split; [exact Ht2 |]. split; [intros n Hn; apply Hmono2, Hmono1, Hn |].
    intros Hok n [Hn | Hn].
    + subst n. apply Hmono2, Hone. destruct x; [reflexivity | discriminate].
    + apply Hall; [| exact Hn]. destruct x; [destruct xs |]; [reflexivity | discriminate ..].
Qed.

End Indexes.

Lemma createIndexes_unfolded (r : rethinkdb) (tbl : string)
      (ixs : list (string * index_options)) (w : world db) (t : table) :
  get_table tbl (connection w) = Ok t ->
  createIndexesIfNotExist r tbl ixs w =
  let listed := World (connection w) (trace w ++ [Ran (IndexList (Table tbl))]) in
  match ixs with
  | [] => (Ok [], listed)
  | _ => promise_all (map (ensureIndex r tbl (VArr (map (fun i => VStr (fst i)) (indexes t)))) ixs) listed
  end.
Proof.
  intros Ht. unfold createIndexesIfNotExist, bind. rewrite run_query_exec.
  cbn [exec connection trace fst snd]. rewrite Ht. cbn [fst snd].
  destruct ixs; reflexivity.
Qed.

Lemma createTableIfNotExists_ensures (tbl : string) (w : world db) :
  exists out w' t,
    createTableIfNotExists tbl w = (Ok out, w') /\ get_table tbl (connection w') = Ok t.
Proof.
  unfold createTableIfNotExists, bind, lift. rewrite run_query_exec. simpl.
  rewrite includes_names.
  destruct (existsb (fun e => fst e =? tbl) (tables (connection w))) eqn:E; simpl.
  - destruct (listed_get_table tbl (connection w) E) as [t Ht].
    eexists; eexists; exists t. split; [reflexivity | exact Ht].
  - rewrite run_query_exec. simpl. rewrite E. simpl.
    eexists; eexists; eexists. split; [reflexivity |]. simpl.
    apply get_created_table. exact E.
Qed.

Lemma createTableIfNotExists_skips (tbl : string) (w : world db) (t : table) :
  get_table tbl (connection w) = Ok t ->
  createTableIfNotExists tbl w =
  (Ok (VBool false), World (connection w) (trace w ++ [Ran TableList])).
Proof.
  intros Ht. unfold createTableIfNotExists, bind, lift. rewrite run_query_exec. simpl.
  rewrite includes_names, (get_table_listed tbl (connection w) t Ht). reflexivity.
Qed.

(** After a bootstrap that succeeded, the table is there with every
    configured index. *)
Lemma createTable_ensures (r : rethinkdb) (tbl : string)
      (ixs : list (string * index_options)) (w w' : world db) (out : list value) :
  createTable r tbl ixs w = (Ok out, w') ->
  exists t, get_table tbl (connection w') = Ok t /\
            forall n, In n (map fst ixs) -> has_index n t = true.
Proof.
  unfold createTable, bind.
  destruct (createTableIfNotExists_ensures tbl w) as [o [w0 [t0 [Hc Ht0]]]].
  rewrite Hc, (createIndexes_unfolded r tbl ixs w0 t0 Ht0). cbv zeta.
  destruct ixs as [| index ixs].
  - intros Hrun. inversion Hrun. exists t0. simpl. split; [exact Ht0 | intros n []].
  - set (listed := World (connection w0) _).
    set (existing := map _ (indexes t0)).
    intros Hrun.
    destruct (ensure_all r tbl existing (index :: ixs) listed t0 Ht0) as [t [Ht [_ Hall]]].
    { intros n Hn. unfold existing in Hn. rewrite includes_names in Hn. exact Hn. }
    rewrite Hrun in Ht, Hall. exists t. split; [exact Ht |]. apply Hall. reflexivity.
Qed.

(** A bootstrap that finds the table and every index in place only lists. *)
Lemma createTable_settled (r : rethinkdb) (tbl : string)
      (ixs : list (string * index_options)) (w : world db) (t : table) :
  get_table tbl (connection w) = Ok t ->
  (forall n, In n (map fst ixs) -> has_index n t = true) ->
  createTable r tbl ixs w =
  (Ok (map (fun _ => VBool true) ixs),
   World (connection w) (trace w ++ [Ran TableList; Ran (IndexList (Table tbl))])).
Proof.
  intros Ht Hall. unfold createTable, bind.
  rewrite (createTableIfNotExists_skips tbl w t Ht).
  cbv beta iota.
  rewrite (createIndexes_unfolded r tbl ixs
             (World (connection w) (trace w ++ [Ran TableList])) t Ht).
  cbn [connection trace].
  rewrite <- app_assoc. cbn [app].
  destruct ixs as [| index ixs]; [reflexivity |].
  apply ensure_nothing. intros n Hn. rewrite includes_names. apply Hall. exact Hn.
Qed.

End BootstrapFacts.

(** C9. A bootstrap that finds the table in the list of tables and every
    configured index in the list of indexes sends those two listings and
    nothing else, whatever the store; and on the reference store, a bootstrap
    that follows a successful bootstrap with the same table name and the same
    indexes is such a bootstrap: it creates nothing and leaves the store as it
    is. *)
Theorem bootstrap_idempotent :
  (forall (conn : Type) (D : Driver conn) (r : rethinkdb) (tableName : string)
          (indexes : list (string * index_options)) (w : world conn)
          (tables existing : list value) (c1 c2 : conn),
     run TableList (connection w) = (Ok (VArr tables), c1) ->
     JS.includes tables (VStr tableName) = true ->
     run (IndexList (Table tableName)) c1 = (Ok (VArr existing), c2) ->
     (forall n, In n (map fst indexes) -> JS.includes existing (VStr n) = true) ->
     createTable r tableName indexes w
     = (Ok (map (fun _ => VBool true) indexes),
        World c2 (trace w ++ [Ran TableList; Ran (IndexList (Table tableName))]))) /\
  (forall (r : rethinkdb) (tableName : string) (indexes : list (string * index_options))
          (autoCreateTable : bool) (d : MemStore.db) (first : world MemStore.db),
     generate tableName r indexes autoCreateTable (MemStore.start d) = (Ok tt, first) ->
     generate tableName r indexes autoCreateTable (MemStore.start (connection first))
     = (Ok tt,
        World (connection first)
              (if autoCreateTable
               then [Ran TableList; Ran (IndexList (Table tableName))]
               else []))).
Proof.
  split.
  - intros conn D r tableName indexes w tables existing c1 c2.
    apply createTable_skips_present.
  - intros r tableName indexes [|] d first; unfold generate, bind, ret; [| reflexivity].
    destruct (createTable r tableName indexes (MemStore.start d)) as [[out | e] w1] eqn:Hfirst;
      [| discriminate].
    intros Hw. inversion Hw. subst w1.
    destruct (BootstrapFacts.createTable_ensures r tableName indexes _ _ out Hfirst)
      as [t [Ht Hall]].
    rewrite (BootstrapFacts.createTable_settled r tableName indexes
               (MemStore.start (connection first)) t Ht Hall).
    reflexivity.
Qed.

Lemma bootstrap_idempotent_witness :
  generate "User" Examples.r Examples.indexes true
           (MemStore.start (connection Examples.bootstrapped))
  = (Ok tt,
     World (connection Examples.bootstrapped)
           [Ran TableList; Ran (IndexList (Table "User"))]).
Proof.
  apply (proj2 bootstrap_idempotent Examples.r "User" Examples.indexes true MemStore.empty
           Examples.bootstrapped).
  reflexivity.
Defined.

(** * Further properties *)

(** ** Splitting on the dot *)

Lemma split_not_nil (sep : ascii) (s : string) : JS.split sep s <> [].
Proof.
  destruct s as [| c s]; simpl; [discriminate |].
  destruct (Ascii.eqb c sep); [discriminate |].
  destruct (JS.split sep s); discriminate.
Qed.

Lemma split_app (sep : ascii) (a b : string) :
  JS.split sep (a ++ String sep b)%string = JS.split sep a ++ JS.split sep b.
Proof.
  induction a as [| c a IH]; simpl.
  - rewrite Ascii.eqb_refl. reflexivity.
  - destruct (Ascii.eqb c sep); [rewrite IH; reflexivity |].
    rewrite IH. pose proof (split_not_nil sep a) as Hne.
    destruct (JS.split sep a) as [| h t]; [contradiction | reflexivity].
Qed.

Lemma split_plain (sep : ascii) (s : string) :
  JS.includes_char sep s = false -> JS.split sep s = [s].
Proof.
  induction s as [| c s IH]; simpl; [reflexivity |].
  rewrite (Ascii.eqb_sym c sep).
  destruct (Ascii.eqb sep c); simpl; [discriminate |].
  intros Hs. rewrite (IH Hs). reflexivity.
Qed.

Lemma includes_char_app (sep : ascii) (a b : string) :
  JS.includes_char sep (a ++ String sep b)%string = true.
Proof.
  induction a as [| c a IH]; simpl.
  - rewrite Ascii.eqb_refl. reflexivity.
  - rewrite IH. apply orb_true_r.
Qed.

Lemma last_app_right {A : Type} (l1 l2 : list A) (d : A) :
  l2 <> [] -> last (l1 ++ l2) d = last l2 d.
Proof.
  intros Hne. induction l1 as [| x l1 IH]; [reflexivity |].
  simpl. destruct (l1 ++ l2) eqn:E; [| exact IH].
  apply app_eq_nil in E. destruct E as [_ E]. contradiction.
Qed.

Lemma split_twice (sep : ascii) (s : string) :
  JS.includes_char sep s = true -> exists h x t, JS.split sep s = h :: x :: t.
Proof.
  induction s as [| c s IH]; simpl; [discriminate |].
  rewrite (Ascii.eqb_sym c sep).
  destruct (Ascii.eqb sep c); simpl.
  - intros _. pose proof (split_not_nil sep s) as Hne.
    destruct (JS.split sep s) as [| x t]; [contradiction |].
    exists EmptyString, x, t. reflexivity.
  - intros Hs. destruct (IH Hs) as [h [x [t Heq]]]. rewrite Heq.
    exists (String c h), x, t. reflexivity.
Qed.

Lemma split_segments_plain (sep : ascii) (s : string) :
  Forall (fun segment => JS.includes_char sep segment = false) (JS.split sep s).
Proof.
  induction s as [| c s IH]; simpl.
  - constructor; [reflexivity | constructor].
  - destruct (Ascii.eqb c sep) eqn:E.
    + constructor; [reflexivity | exact IH].
    + destruct (JS.split sep s) as [| h t]; [constructor; [| constructor] |].
      * simpl. rewrite (Ascii.eqb_sym sep c), E. reflexivity.
      * inversion IH as [| ? ? Hh Ht]. constructor; [| exact Ht].
        simpl. rewrite (Ascii.eqb_sym sep c), E. exact Hh.
Qed.

Lemma split_last_suffix (sep : ascii) (s : string) :
  JS.includes_char sep s = true ->
  exists prefix, s = (prefix ++ String sep (last (JS.split sep s) EmptyString))%string.
Proof.
  induction s as [| c s IH]; simpl; [discriminate |].
  rewrite (Ascii.eqb_sym c sep).
  destruct (Ascii.eqb sep c) eqn:E; simpl.
  - apply Ascii.eqb_eq in E. subst c. intros _.
    pose proof (split_not_nil sep s) as Hne.
    destruct (JS.includes_char sep s) eqn:Hs.
    + destruct (IH eq_refl) as [prefix Heq].
      exists (String sep prefix). simpl.
      destruct (JS.split sep s) as [| x t]; [contradiction |].
      rewrite <- Heq. reflexivity.
    + rewrite (split_plain sep s Hs). exists EmptyString. reflexivity.
  - intros Hs. destruct (IH Hs) as [prefix Heq].
    destruct (split_twice sep s Hs) as [h [x [t Hsplit]]].
    rewrite Hsplit in *. exists (String c prefix). simpl. simpl in Heq.
    rewrite <- Heq. reflexivity.
Qed.

(** X1. The table name of a namespace is what follows its last dot. *)
Theorem extractTableName_suffix :
  forall (prefix name : string),
    JS.includes_char "." name = false ->
    extractTableName (prefix ++ "." ++ name)%string = Some name.
Proof.
  intros prefix name Hname. unfold extractTableName.
  change ("." ++ name)%string with (String "." name).
  rewrite includes_char_app, split_app.
  rewrite last_app_right by apply split_not_nil.
  rewrite (split_plain "." name Hname). reflexivity.
Qed.

Lemma extractTableName_suffix_witness :
  extractTableName "entity.User" = Some "User".
Proof.
  apply (extractTableName_suffix "entity" "User"). reflexivity.
Defined.

(** X2. Whenever a table name is extracted, the namespace ends with a dot
    followed by that name, and the name has no dot in it; a namespace without
    a dot has no table name. *)
Theorem extractTableName_sound :
  forall (namespace : string),
    match extractTableName namespace with
    | Some name =>
        JS.includes_char "." name = false /\
        exists prefix, namespace = (prefix ++ "." ++ name)%string
    | None => JS.includes_char "." namespace = false
    end.
Proof.
  intros namespace. unfold extractTableName.
  destruct (JS.includes_char "." namespace) eqn:Hdot; [| reflexivity].
  split.
  - pose proof (split_segments_plain "." namespace) as Hall.
    pose proof (split_not_nil "." namespace) as Hne.
    induction (JS.split "." namespace) as [| h t IH]; [contradiction |].
    inversion Hall as [| h0 t0 Hh Ht]. destruct t as [| next t]; [exact Hh |].
    apply IH; [exact Ht | discriminate].
  - apply split_last_suffix. exact Hdot.
Qed.

Lemma split_concat (segments : list string) :
  segments <> [] ->
  Forall (fun segment => JS.includes_char "." segment = false) segments ->
  JS.split "." (String.concat "." segments) = segments.
Proof.
  intros Hne Hall. induction segments as [| x rest IH]; [contradiction |].
  inversion Hall as [| ? ? Hx Hrest]. destruct rest as [| y rest].
  - simpl. apply split_plain. exact Hx.
  - change (String.concat "." (x :: y :: rest))
      with (x ++ String "." (String.concat "." (y :: rest)))%string.
    rewrite split_app, (split_plain "." x Hx), IH; [reflexivity | discriminate | exact Hrest].
Qed.

(** X3. A path of two or more segments joined by dots becomes one argument,
    the chain of field accesses of the segments, in their order, starting from
    the row. *)
Theorem dotted_path_is_a_chain :
  forall (r : rethinkdb) (first second : string) (others : list string),
    Forall (fun segment => JS.includes_char "." segment = false)
           (first :: second :: others) ->
    processIndexOptions r (OptValue (VStr (String.concat "." (first :: second :: others))))
    = [ArgTerm (fold_left (fun acc field => RBracket acc (VStr field)) others
                          (RBracket (RBracket (row r) (VStr first)) (VStr second)))].
Proof.
  intros r first second others Hall.
  pose proof (split_concat (first :: second :: others)) as Hsplit.
  unfold processIndexOptions, is_dotted_string, is_field_list, is_plain_object, is_callable.
  cbn [typeof_options isArray_options JS.typeof JS.isArray String.eqb Ascii.eqb Bool.eqb
       andb negb app].
  change (String.concat "." (first :: second :: others))
    with (first ++ String "." (String.concat "." (second :: others)))%string in *.
  rewrite includes_char_app, Hsplit; [reflexivity | discriminate | exact Hall].
Qed.

Lemma dotted_path_is_a_chain_witness :
  processIndexOptions Examples.r (OptValue (VStr "birthdate.year"))
  = [ArgTerm (RBracket (RBracket RRow (VStr "birthdate")) (VStr "year"))].
Proof.
  apply (dotted_path_is_a_chain Examples.r "birthdate" "year" []).
  repeat constructor.
Defined.

(** ** Bootstrap with any store *)

Section BootstrapTrace.

Context {conn : Type} `{Driver conn}.
Variables (r : rethinkdb) (tableName : string).

Lemma ensure_trace (existing : list value) (l : list (string * index_options))
      (w : world conn) :
  trace (snd (promise_all (map (ensureIndex r tableName (VArr existing)) l) w))
  = trace w ++
    map (fun index => Ran (IndexCreate (Table tableName) (fst index)
                                       (processIndexOptions r (snd index))))
        (filter (fun index => negb (JS.includes existing (VStr (fst index)))) l).
Proof.
  revert w. induction l as [| index l IH]; intros w.
  - simpl. rewrite app_nil_r. reflexivity.
  - cbn [map promise_all filter].
    destruct (ensureIndex r tableName (VArr existing) index w) as [x w1] eqn:Ex.
    specialize (IH w1).
    destruct (promise_all (map (ensureIndex r tableName (VArr existing)) l) w1) as [xs w2].
    cbn [snd] in *. rewrite IH. clear IH.
    rewrite ensureIndex_listed in Ex.
    destruct (JS.includes existing (VStr (fst index))); cbn [negb].
    + inversion Ex. reflexivity.
    + unfold run_query in Ex.
      destruct (run (IndexCreate (Table tableName) (fst index)
                                 (processIndexOptions r (snd index))) (connection w))
        as [answer c].
      inversion Ex. cbn [trace map]. rewrite <- app_assoc. reflexivity.
Qed.

End BootstrapTrace.

(** X4. Whatever the store answers to the creations, the index step sends the
    listing and then one [indexCreate] for every configured index that is not
    in the listing, in the order of the configuration, with the arguments its
    specification normalizes to; an index in the listing is never created
    again, and a rejected creation does not keep the later ones from being
    sent. *)
Theorem createIndexes_sends_the_missing :
  forall (conn : Type) (D : Driver conn) (r : rethinkdb) (tableName : string)
         (indexes : list (string * index_options)) (w : world conn)
         (existing : list value) (c : conn),
    run (IndexList (Table tableName)) (connection w) = (Ok (VArr existing), c) ->
    trace (snd (createIndexesIfNotExist r tableName indexes w))
    = trace w ++
      Ran (IndexList (Table tableName)) ::
      map (fun index => Ran (IndexCreate (Table tableName) (fst index)
                                         (processIndexOptions r (snd index))))
          (filter (fun index => negb (JS.includes existing (VStr (fst index)))) indexes).
Proof.
  intros conn D r tableName indexes w existing c Hlist.
  unfold createIndexesIfNotExist, bind, run_query. rewrite Hlist.
  rewrite ensure_trace. cbn [trace]. rewrite <- app_assoc. reflexivity.
Qed.

Lemma createIndexes_sends_the_missing_witness :
  trace (snd (createIndexesIfNotExist Examples.r "User" Examples.indexes
                (MemStore.start
                   (MemStore.MkDb
                      [("User", MemStore.MkTable [] [("email", []); ("hobbies", [])])] 0))))
  = [Ran (IndexList (Table "User"));
     Ran (IndexCreate (Table "User") "fullname"
            [ArgTerms [RBracket RRow (VStr "firstName"); RBracket RRow (VStr "lastName")]]);
     Ran (IndexCreate (Table "User") "birthdateYear"
            [ArgTerm (RBracket (RBracket RRow (VStr "birthdate")) (VStr "year"))]);
     Ran (IndexCreate (Table "User") "summary"
            [ArgTerm (RAdd [RBracket RRow (VStr "firstName"); RDatum (VStr "_");
                            RBracket RRow (VStr "lastName"); RDatum (VStr "_");
                            RBracket RRow (VStr "age")])])].
Proof.
  apply (createIndexes_sends_the_missing MemStore.db MemStore.driver Examples.r "User"
           Examples.indexes
           (MemStore.start
              (MemStore.MkDb
                 [("User", MemStore.MkTable [] [("email", []); ("hobbies", [])])] 0))
           [VStr "email"; VStr "hobbies"]
           (MemStore.MkDb [("User", MemStore.MkTable [] [("email", []); ("hobbies", [])])] 0)).
  reflexivity.
Defined.

(** X5. The table step of the bootstrap: when the listing of the tables, an
    array of names or a string, includes the table, the table is never
    created; when it does not, the table is created once; and when the listing
    or the creation is rejected, or the listing has no [includes], the
    bootstrap fails there, before any query about indexes. *)
Theorem createTable_table_step :
  forall (conn : Type) (D : Driver conn) (r : rethinkdb) (tableName : string)
         (indexes : list (string * index_options)) (w : world conn),
    let listed c := World c (trace w ++ [Ran TableList]) in
    let created c := World c (trace w ++ [Ran TableList; Ran (TableCreate tableName)]) in
    match run TableList (connection w) with
    | (Err e, c) => createTable r tableName indexes w = (Err e, listed c)
    | (Ok tables, c) =>
        match JS.includes_method tables tableName with
        | Err e => createTable r tableName indexes w = (Err e, listed c)
        | Ok true =>
            createTable r tableName indexes w
            = createIndexesIfNotExist r tableName indexes (listed c)
        | Ok false =>
            match run (TableCreate tableName) c with
            | (Err e, c') => createTable r tableName indexes w = (Err e, created c')
            | (Ok _, c') =>
                createTable r tableName indexes w
                = createIndexesIfNotExist r tableName indexes (created c')
            end
        end
    end.
Proof.
  intros conn D r tableName indexes w listed created.
  unfold createTable, createTableIfNotExists, bind, run_query, lift, ret.
  destruct (run TableList (connection w)) as [[tables | e] c]; [| reflexivity].
  destruct (JS.includes_method tables tableName) as [[|] | e]; cbn [negb]; try reflexivity.
  cbn [connection trace].
  destruct (run (TableCreate tableName) c) as [[answer | e] c']; unfold created;
    rewrite <- app_assoc; reflexivity.
Qed.

(** A listing that is a string is searched for the name as a piece of text:
    the table step is over without a creation, and the index step follows. *)
Example string_listing_is_searched :
  forall (conn : Type) (D : Driver conn) (w : world conn) (c : conn),
    run TableList (connection w) = (Ok (VStr "Users"), c) ->
    createTable Examples.r "User" [] w
    = createIndexesIfNotExist Examples.r "User" [] (World c (trace w ++ [Ran TableList])).
Proof.
  intros conn D w c Hrun.
  unfold createTable, createTableIfNotExists, bind, run_query, lift, ret.
  rewrite Hrun. reflexivity.
Qed.

(** ** Parameters of every shape *)

(** The keys of an array or of a string are decimal numbers. *)
Ltac not_an_index :=
  intros; unfold JS.index_name;
  match goal with |- context [Nat.to_uint ?i] => destruct (Nat.to_uint i) end;
  reflexivity.

Lemma lookup_named_indexed (k : string) (l : list value) :
  (forall i, (k =? JS.index_name i) = false) ->
  forall i, JS.lookup k (JS.indexed i l) = None.
Proof.
  intros Hk. induction l as [| x l IH]; intros i; cbn [JS.indexed JS.lookup]; [reflexivity |].
  rewrite Hk. apply IH.
Qed.

Lemma lookup_filtered (k k' : string) (fs : list (string * value)) :
  JS.lookup k (filter (fun kv => negb (fst kv =? k')) fs)
  = if k =? k' then None else JS.lookup k fs.
Proof.
  destruct (k =? k') eqn:E.
  - apply String.eqb_eq in E. subst k'. apply lookup_omitted.
  - apply lookup_kept. intros Heq. subst k'. rewrite String.eqb_refl in E. discriminate.
Qed.

(** X6. Parameters that are not an object: a string is a lookup by key;
    [undefined], a number, a boolean and an array select the whole table;
    [null] is a type error. *)
Theorem paramsToQuery_without_object :
  forall (tableName : string),
    (forall s, paramsToQuery tableName (VStr s) = Ok (Get (Table tableName) (VStr s))) /\
    paramsToQuery tableName VUndefined = Ok (Table tableName) /\
    (forall n, paramsToQuery tableName (VNum n) = Ok (Table tableName)) /\
    (forall b, paramsToQuery tableName (VBool b) = Ok (Table tableName)) /\
    (forall items, paramsToQuery tableName (VArr items) = Ok (Table tableName)) /\
    paramsToQuery tableName VNull
    = Err (TypeError "Cannot read property of undefined or null").
Proof.
  intros tableName. repeat split; try reflexivity.
  intros items. unfold paramsToQuery, getTable.
  cbn [JS.typeof String.eqb Ascii.eqb Bool.eqb JS.get JS.own_props bind_result].
  rewrite !lookup_named_indexed by not_an_index. reflexivity.
Qed.

(** X7. The query builder reads five parameters and nothing else, and a
    parameter with a falsy value ([limit: 0], [skip: 0], [filters: null], an
    empty string) counts as absent: taking such a key out of the parameters
    does not change the query. *)
Theorem paramsToQuery_reads_five_parameters :
  forall (tableName : string) (params : list (string * value)) (k : string),
    ~ In k query_parameters \/
    (exists x, JS.lookup k params = Some x /\ JS.truthy x = false) ->
    paramsToQuery tableName (JS.omit (VObj params) k) = paramsToQuery tableName (VObj params).
Proof.
  intros tableName params k Hk.
  unfold paramsToQuery, getTable, JS.omit.
  cbn [JS.typeof String.eqb Ascii.eqb Bool.eqb JS.get JS.own_props bind_result].
  rewrite !lookup_filtered.
  destruct Hk as [Hout | [x [Hl Hf]]].
  - assert (Hne : forall n, In n query_parameters -> (n =? k) = false).
    { intros n Hn. destruct (n =? k) eqn:E; [| reflexivity].
      apply String.eqb_eq in E. subst n. contradiction. }
    rewrite !Hne by (simpl; tauto). reflexivity.
  - destruct ("orderBy" =? k) eqn:E1; destruct ("filters" =? k) eqn:E2;
      destruct ("limit" =? k) eqn:E3; destruct ("skip" =? k) eqn:E4;
      destruct ("fields" =? k) eqn:E5;
      repeat match goal with
             | E : (_ =? k) = true |- _ => apply String.eqb_eq in E; subst k
             | E : (_ =? _) = true |- _ => discriminate E
             end;
      rewrite ?Hl; cbn [JS.truthy]; rewrite ?Hf; reflexivity.
Qed.

Lemma paramsToQuery_reads_five_parameters_witness :
  paramsToQuery "T" (JS.omit (VObj [("orderBy", VStr "v"); ("limit", VNum 0)]) "limit")
  = paramsToQuery "T" (VObj [("orderBy", VStr "v"); ("limit", VNum 0)]).
Proof.
  apply (paramsToQuery_reads_five_parameters "T"
           [("orderBy", VStr "v"); ("limit", VNum 0)] "limit").
  right. exists (VNum 0). split; reflexivity.
Defined.

(** X8. A [fields] parameter that is truthy and is neither an array nor a
    string cannot be spread: [find] fails with a type error and sends no
    query. *)
Theorem find_with_fields_not_iterable :
  forall (conn : Type) (D : Driver conn) (tableName : string)
         (params : list (string * value)) (fields : value) (w : world conn),
    JS.lookup "fields" params = Some fields ->
    JS.truthy fields = true ->
    JS.isArray fields = false ->
    (JS.typeof fields =? "string") = false ->
    find tableName (VObj params) w = (Err (TypeError "value is not iterable"), w).
Proof.
  intros conn D tableName params fields w Hl Ht Ha Hs.
  assert (Hspread : JS.spread fields = Err (TypeError "value is not iterable"))
    by (destruct fields; try reflexivity; discriminate).
  unfold find, bind, lift, paramsToQuery, getTable.
  cbn [JS.typeof String.eqb Ascii.eqb Bool.eqb JS.get JS.own_props bind_result].
  rewrite Hl, Ht, Hspread. reflexivity.
Qed.

Lemma find_with_fields_not_iterable_witness :
  find "T" (VObj [("fields", VNum 5)]) (MemStore.start Examples.three)
  = (Err (TypeError "value is not iterable"), MemStore.start Examples.three).
Proof.
  apply (find_with_fields_not_iterable MemStore.db MemStore.driver "T"
           [("fields", VNum 5)] (VNum 5) (MemStore.start Examples.three));
    reflexivity.
Defined.

(** X9. [find] with a string looks the key up and then asks the answer for
    [toArray]: when the store answers the lookup with a document or with
    [null], and not with an array, [find] fails with a type error. *)
Theorem find_by_key_fails :
  forall (conn : Type) (D : Driver conn) (tableName key : string) (w : world conn)
         (answer : value) (c : conn),
    run (Get (Table tableName) (VStr key)) (connection w) = (Ok answer, c) ->
    JS.isArray answer = false ->
    find tableName (VStr key) w
    = (Err (TypeError "cursor.toArray is not a function"),
       World c (trace w ++ [Ran (Get (Table tableName) (VStr key))])).
Proof.
  intros conn D tableName key w answer c Hrun Ha.
  unfold find, bind, lift, run_query. cbn [paramsToQuery JS.typeof String.eqb getTable].
  change (paramsToQuery tableName (VStr key)) with (Ok (Get (Table tableName) (VStr key))).
  cbv beta iota. rewrite Hrun.
  destruct answer; try reflexivity; discriminate.
Qed.

Lemma find_by_key_fails_witness :
  find "User" (VStr "u1") (MemStore.start Examples.one_user)
  = (Err (TypeError "cursor.toArray is not a function"),
     World Examples.one_user [Ran (Get (Table "User") (VStr "u1"))]).
Proof.
  apply (find_by_key_fails MemStore.db MemStore.driver "User" "u1"
           (MemStore.start Examples.one_user) Examples.stored_john Examples.one_user);
    reflexivity.
Defined.

Lemma get_first (l : list value) : JS.get (VArr l) "0" = Ok (nth 0 l VUndefined).
Proof. destruct l; reflexivity. Qed.

(** X10. [findOne] sends one query, the table filtered by its parameter and
    limited to one row (the table itself limited to one row when the parameter
    is falsy), and returns the first row of the answer, or [undefined] when the
    answer is empty. *)
Theorem findOne_first_or_undefined :
  forall (conn : Type) (D : Driver conn) (tableName : string) (params : value)
         (w : world conn) (rows : list value) (c : conn),
    let q := Limit (if JS.truthy params then Filter (Table tableName) params
                    else Table tableName) (VNum 1) in
    run q (connection w) = (Ok (VArr rows), c) ->
    findOne tableName params w = (Ok (nth 0 rows VUndefined), World c (trace w ++ [Ran q])).
Proof.
  intros conn D tableName params w rows c q Hrun.
  unfold findOne, bind, lift, run_query, paramsToQuery, getTable.
  cbn [JS.typeof String.eqb Ascii.eqb Bool.eqb JS.get JS.own_props JS.lookup bind_result
       JS.truthy].
  destruct (JS.truthy params); cbv beta iota; unfold q in Hrun; rewrite Hrun;
    cbn [toArray]; rewrite get_first; reflexivity.
Qed.

Lemma findOne_first_or_undefined_witness :
  findOne "User" (VObj [("firstName", VStr "Jane")]) (MemStore.start Examples.one_user)
  = (Ok VUndefined,
     World Examples.one_user
           [Ran (Limit (Filter (Table "User") (VObj [("firstName", VStr "Jane")])) (VNum 1))]).
Proof.
  apply (findOne_first_or_undefined MemStore.db MemStore.driver "User"
           (VObj [("firstName", VStr "Jane")]) (MemStore.start Examples.one_user) []
           Examples.one_user).
  reflexivity.
Defined.

(** X11. [remove] with parameters in which no query parameter is truthy, as
    with an empty object or with [{filters: null}], deletes the whole table:
    the one query it sends is the [delete] of the table, asking for the
    changes according to [load]. *)
Theorem remove_without_narrowing :
  forall (conn : Type) (D : Driver conn) (tableName : string)
         (params : list (string * value)) (w : world conn),
    (forall k, In k query_parameters ->
               match JS.lookup k params with
               | Some x => JS.truthy x = false
               | None => True
               end) ->
    remove tableName (VObj params) w
    = run_query (Delete (Table tableName)
                        (return_changes match JS.lookup "load" params with
                                        | Some load => load
                                        | None => VUndefined
                                        end)) w.
Proof.
  intros conn D tableName params w Hnone.
  assert (Hq : paramsToQuery tableName (VObj params) = Ok (Table tableName)).
  { unfold paramsToQuery, getTable.
    cbn [JS.typeof String.eqb Ascii.eqb Bool.eqb JS.get JS.own_props bind_result].
    pose proof (Hnone "filters") as H1. pose proof (Hnone "orderBy") as H2.
    pose proof (Hnone "skip") as H3. pose proof (Hnone "limit") as H4.
    pose proof (Hnone "fields") as H5.
    destruct (JS.lookup "filters" params); [rewrite H1 by (simpl; tauto) |];
      (destruct (JS.lookup "orderBy" params); [rewrite H2 by (simpl; tauto) |]);
      (destruct (JS.lookup "skip" params); [rewrite H3 by (simpl; tauto) |]);
      (destruct (JS.lookup "limit" params); [rewrite H4 by (simpl; tauto) |]);
      (destruct (JS.lookup "fields" params); [rewrite H5 by (simpl; tauto) |]);
      reflexivity. }
  unfold remove, bind, lift. rewrite Hq. reflexivity.
Qed.

Lemma remove_without_narrowing_witness :
  remove "T" (VObj [("filters", VNull); ("load", VBool true)]) (MemStore.start Examples.three)
  = run_query (Delete (Table "T") (return_changes (VBool true)))
              (MemStore.start Examples.three).
Proof.
  apply (remove_without_narrowing MemStore.db MemStore.driver "T"
           [("filters", VNull); ("load", VBool true)] (MemStore.start Examples.three)).
  intros k Hk. simpl in Hk.
  repeat (destruct Hk as [<- | Hk]; [exact I || reflexivity |]). contradiction.
Defined.

(** X12. [remove] without an object: no parameter at all deletes the whole
    table, a string deletes the record under that key, in both cases without
    asking for the changes; [null] is a type error and nothing is sent. *)
Theorem remove_without_object :
  forall (conn : Type) (D : Driver conn) (tableName : string) (w : world conn),
    remove tableName VUndefined w
    = run_query (Delete (Table tableName) (return_changes VUndefined)) w /\
    (forall key,
       remove tableName (VStr key) w
       = run_query (Delete (Get (Table tableName) (VStr key)) (return_changes VUndefined)) w) /\
    remove tableName VNull w
    = (Err (TypeError "Cannot read property of undefined or null"), w).
Proof.
  intros conn D tableName w. repeat split.
  intros key. unfold remove, bind, lift.
  change (paramsToQuery tableName (VStr key)) with (Ok (Get (Table tableName) (VStr key))).
  cbn [JS.get JS.own_props String.eqb Ascii.eqb Bool.eqb].
  unfold JS.chars. rewrite lookup_named_indexed by not_an_index. reflexivity.
Qed.

(** ** Updating and saving *)

(** X13. An [update] with a truthy [id] sends one query, the update of the
    record under that [id] with the payload from which [id] has been taken
    out; when the store reports a change, the new value of the first change is
    returned. *)
Theorem update_returns_new_value :
  forall (conn : Type) (D : Driver conn) (tableName : string) (params id : value)
         (w : world conn) (answer change : value) (others : list value) (c : conn),
    let q := Update (Get (Table tableName) id) (JS.omit params "id")
                    (return_changes (VBool true)) in
    JS.get params "id" = Ok id ->
    JS.truthy id = true ->
    run q (connection w) = (Ok answer, c) ->
    JS.get answer "changes" = Ok (VArr (change :: others)) ->
    update tableName params w = (JS.get change "new_val", World c (trace w ++ [Ran q])) /\
    JS.get (JS.omit params "id") "id" = Ok VUndefined.
Proof.
  intros conn D tableName params id w answer change others c q Hid Ht Hrun Hc.
  split.
  - unfold update, bind, lift, run_query, getTable. rewrite Hid, Ht. cbn [negb].
    fold q. rewrite Hrun. unfold updated. rewrite Hc. reflexivity.
  - cbn [JS.omit JS.get JS.own_props]. rewrite lookup_omitted. reflexivity.
Qed.

Lemma update_returns_new_value_witness :
  update "User" (VObj [("id", VStr "u1"); ("lastName", VStr "Donovan")])
         (MemStore.start Examples.one_user)
  = (Ok (VObj [("id", VStr "u1"); ("firstName", VStr "John"); ("lastName", VStr "Donovan")]),
     World (MemStore.MkDb
              [("User",
                MemStore.MkTable
                  [VObj [("id", VStr "u1"); ("firstName", VStr "John");
                         ("lastName", VStr "Donovan")]] [])] 0)
           [Ran (Update (Get (Table "User") (VStr "u1"))
                        (VObj [("lastName", VStr "Donovan")])
                        (return_changes (VBool true)))]).
Proof.
  apply (update_returns_new_value MemStore.db MemStore.driver "User"
           (VObj [("id", VStr "u1"); ("lastName", VStr "Donovan")]) (VStr "u1")
           (MemStore.start Examples.one_user)
           (VObj [("replaced", VNum 1); ("unchanged", VNum 0); ("skipped", VNum 0);
                  ("changes",
                   VArr [VObj [("new_val",
                                VObj [("id", VStr "u1"); ("firstName", VStr "John");
                                      ("lastName", VStr "Donovan")]);
                               ("old_val", Examples.stored_john)]])])
           (VObj [("new_val",
                   VObj [("id", VStr "u1"); ("firstName", VStr "John");
                         ("lastName", VStr "Donovan")]);
                  ("old_val", Examples.stored_john)])
           []
           (MemStore.MkDb
              [("User",
                MemStore.MkTable
                  [VObj [("id", VStr "u1"); ("firstName", VStr "John");
                         ("lastName", VStr "Donovan")]] [])] 0));
    reflexivity.
Defined.

(** X14. Without a schema, [save] decides on the payload as it was given: a
    truthy [id] makes the one query an update of the record under that [id],
    with the whole payload, [id] included; any other [id], also [0], an empty
    string or [null], makes it an insert of the payload; and a payload whose
    [id] cannot be read fails after the before-hook, with no query. *)
Theorem save_without_schema_decides_on_id :
  forall (conn : Type) (D : Driver conn) (namespace tableName : string)
         (params : value) (w : world conn),
    let name := (namespace ++ ".save")%string in
    match JS.get params "id" with
    | Err e =>
        save namespace tableName None params w
        = (Err e, World (connection w) (trace w ++ [EmitBefore name params]))
    | Ok id =>
        let q := if JS.truthy id
                 then Update (Get (Table tableName) id) params (return_changes (VBool true))
                 else Insert (Table tableName) params in
        exists outcome final,
          save namespace tableName None params w = (outcome, final) /\
          trace final =
          trace w ++ [EmitBefore name params; Ran q] ++
          match outcome with
          | Ok result => [EmitAfter name result]
          | Err _ => []
          end
    end.
Proof.
  intros conn D namespace tableName params w name.
  rewrite save_unfolded, validate_without_schema. fold name.
  unfold doSave, bind, lift.
  destruct (JS.get params "id") as [id | e]; [| reflexivity].
  cbv zeta.
  set (before := World (connection w) (trace w ++ [EmitBefore name params])).
  destruct (JS.truthy id).
  - pose proof (doUpdate_trace tableName id params before) as Ht.
    destruct (doUpdate tableName id params before) as [[result | e] w'];
      cbn [snd] in Ht; eexists; eexists; (split; [reflexivity |]);
      cbn [trace]; rewrite Ht; unfold before; cbn [trace];
      rewrite <- !app_assoc; reflexivity.
  - pose proof (doInsert_trace tableName params before) as Ht.
    destruct (doInsert tableName params before) as [[result | e] w'];
      cbn [snd] in Ht; eexists; eexists; (split; [reflexivity |]);
      cbn [trace]; rewrite Ht; unfold before; cbn [trace];
      rewrite <- !app_assoc; reflexivity.
Qed.

(** ** Inserting *)

(** X15. When the answer of the store to an insert has no list of generated
    keys, as it does when the payload brought its own [id], [doInsert] fails
    with the answer wrapped in an error, although the insert has been sent. *)
Theorem doInsert_without_generated_keys :
  forall (conn : Type) (D : Driver conn) (tableName : string) (data : value)
         (w : world conn) (answer keys : value) (c : conn),
    run (Insert (Table tableName) data) (connection w) = (Ok answer, c) ->
    JS.get answer "generated_keys" = Ok keys ->
    JS.isArray keys = false ->
    doInsert tableName data w
    = (Err (ErrorOf answer), World c (trace w ++ [Ran (Insert (Table tableName) data)])).
Proof.
  intros conn D tableName data w answer keys c Hrun Hk Ha.
  unfold doInsert, bind, lift, run_query, getTable. rewrite Hrun.
  unfold inserted. rewrite Hk. destruct keys; try reflexivity; discriminate.
Qed.

Lemma doInsert_without_generated_keys_witness :
  doInsert "User" (VObj [("id", VNum 0); ("firstName", VStr "Jane")])
           (MemStore.start Examples.users)
  = (Err (ErrorOf (VObj [("errors", VNum 0); ("inserted", VNum 1)])),
     World (MemStore.MkDb
              [("User",
                MemStore.MkTable [VObj [("id", VNum 0); ("firstName", VStr "Jane")]] [])] 0)
           [Ran (Insert (Table "User") (VObj [("id", VNum 0); ("firstName", VStr "Jane")]))]).
Proof.
  apply (doInsert_without_generated_keys MemStore.db MemStore.driver "User"
           (VObj [("id", VNum 0); ("firstName", VStr "Jane")])
           (MemStore.start Examples.users)
           (VObj [("errors", VNum 0); ("inserted", VNum 1)]) VUndefined
           (MemStore.MkDb
              [("User",
                MemStore.MkTable [VObj [("id", VNum 0); ("firstName", VStr "Jane")]] [])] 0));
    reflexivity.
Defined.

Lemma lookup_set_same (k : string) (x : value) (fs : list (string * value)) :
  JS.lookup k (JS.set k x fs) = Some x.
Proof.
  induction fs as [| [k' y] fs IH]; cbn [JS.set JS.lookup].
  - rewrite String.eqb_refl. reflexivity.
  - destruct (k =? k') eqn:E; cbn [JS.lookup].
    + rewrite String.eqb_refl. reflexivity.
    + rewrite E. exact IH.
Qed.

(** X16. A batch for which the store generates as many keys as it has
    records, and not exactly one, comes back as an array of the same length,
    the record at each position being the submitted one with the key of that
    position as its [id]. *)
Theorem doInsert_batch_positional :
  forall (conn : Type) (D : Driver conn) (tableName : string) (items keys : list value)
         (w : world conn) (answer : value) (c : conn),
    run (Insert (Table tableName) (VArr items)) (connection w) = (Ok answer, c) ->
    JS.get answer "generated_keys" = Ok (VArr keys) ->
    List.length keys = List.length items ->
    List.length items <> 1%nat ->
    exists records,
      doInsert tableName (VArr items) w
      = (Ok (VArr records),
         World c (trace w ++ [Ran (Insert (Table tableName) (VArr items))])) /\
      List.length records = List.length items /\
      forall i, (i < List.length items)%nat ->
        nth i records VUndefined
        = JS.with_id (nth i items VUndefined) (nth i keys VUndefined) /\
        JS.get (nth i records VUndefined) "id" = Ok (nth i keys VUndefined).
Proof.
  intros conn D tableName items keys w answer c Hrun Hk Hlen Hne.
  destruct (inserted_batch_positional items keys answer Hk) as [records [Hr [Hl Hnth]]];
    [rewrite Hlen; exact Hne |].
  exists records. split; [| split; [exact Hl |]].
  - unfold doInsert, bind, lift, run_query, getTable. rewrite Hrun, Hr. reflexivity.
  - intros i Hi. rewrite (Hnth i Hi). split; [reflexivity |].
    unfold JS.with_id, JS.at_index. cbn [JS.get JS.own_props].
    unfold JS.assign at 1. cbn [fold_left fst snd].
    rewrite lookup_set_same. reflexivity.
Qed.

Lemma doInsert_batch_positional_witness :
  exists records,
    doInsert "User" (VArr [Examples.john; Examples.john; Examples.john])
             (MemStore.start Examples.users)
    = (Ok (VArr records),
       World (snd (MemStore.exec
                     (Insert (Table "User")
                             (VArr [Examples.john; Examples.john; Examples.john]))
                     Examples.users))
             [Ran (Insert (Table "User")
                          (VArr [Examples.john; Examples.john; Examples.john]))]) /\
    List.length records = 3%nat /\
    forall i, (i < 3)%nat ->
      nth i records VUndefined
      = JS.with_id (nth i [Examples.john; Examples.john; Examples.john] VUndefined)
                   (nth i [VStr "key-0"; VStr "key-1"; VStr "key-2"] VUndefined) /\
      JS.get (nth i records VUndefined) "id"
      = Ok (nth i [VStr "key-0"; VStr "key-1"; VStr "key-2"] VUndefined).
Proof.
  apply (doInsert_batch_positional MemStore.db MemStore.driver "User"
           [Examples.john; Examples.john; Examples.john]
           [VStr "key-0"; VStr "key-1"; VStr "key-2"]
           (MemStore.start Examples.users)
           (VObj [("errors", VNum 0); ("inserted", VNum 3);
                  ("generated_keys", VArr [VStr "key-0"; VStr "key-1"; VStr "key-2"])])
           (snd (MemStore.exec
                   (Insert (Table "User")
                           (VArr [Examples.john; Examples.john; Examples.john]))
                   Examples.users)));
    try reflexivity.
  discriminate.
Defined.

(** X17. A single record without [id], for which the store generates one key,
    comes back with that key appended as its [id] and every other field as it
    was submitted. *)
Theorem doInsert_single_record :
  forall (conn : Type) (D : Driver conn) (tableName : string)
         (fields : list (string * value)) (w : world conn) (answer key : value) (c : conn),
    run (Insert (Table tableName) (VObj fields)) (connection w) = (Ok answer, c) ->
    JS.get answer "generated_keys" = Ok (VArr [key]) ->
    NoDup (map fst fields) ->
    JS.lookup "id" fields = None ->
    doInsert tableName (VObj fields) w
    = (Ok (VObj (fields ++ [("id", key)])),
       World c (trace w ++ [Ran (Insert (Table tableName) (VObj fields))])).
Proof.
  intros conn D tableName fields w answer key c Hrun Hk Hnd Hid.
  unfold doInsert, bind, lift, run_query, getTable. rewrite Hrun.
  unfold inserted. rewrite Hk. cbn [bind_result List.length Nat.eqb JS.at_index nth].
  rewrite (with_id_appends fields key Hnd Hid). reflexivity.
Qed.

Lemma doInsert_single_record_witness :
  doInsert "User" Examples.john (MemStore.start Examples.users)
  = (Ok (VObj [("firstName", VStr "John"); ("lastName", VStr "Doe"); ("id", VStr "key-0")]),
     World (MemStore.MkDb
              [("User",
                MemStore.MkTable
                  [VObj [("firstName", VStr "John"); ("lastName", VStr "Doe");
                         ("id", VStr "key-0")]] [])] 1)
           [Ran (Insert (Table "User") Examples.john)]).
Proof.
  apply (doInsert_single_record MemStore.db MemStore.driver "User"
           [("firstName", VStr "John"); ("lastName", VStr "Doe")]
           (MemStore.start Examples.users)
           (VObj [("errors", VNum 0); ("inserted", VNum 1);
                  ("generated_keys", VArr [VStr "key-0"])])
           (VStr "key-0")
           (MemStore.MkDb
              [("User",
                MemStore.MkTable
                  [VObj [("firstName", VStr "John"); ("lastName", VStr "Doe");
                         ("id", VStr "key-0")]] [])] 1)).
  - reflexivity.
  - reflexivity.
  - repeat constructor; simpl; intuition discriminate.
  - reflexivity.
Defined.

(** ** Validating an array *)

Lemma validate_array (s : joi) (items : list value) :
  validate (Some s) (VArr items)
  = bind_result (validate_each s items) (fun validated => Ok (VArr validated)).
Proof.
  cbn [validate]. f_equal.
  induction items as [| item items IH]; [reflexivity |].
  cbn [validate_each]. rewrite <- IH. reflexivity.
Qed.

Lemma validate_each_ok (s : joi) (items out : list value) :
  validate_each s items = Ok out ->
  List.length out = List.length items /\
  forall i, (i < List.length items)%nat ->
    validate (Some s) (nth i items VUndefined) = Ok (nth i out VUndefined).
Proof.
  revert out. induction items as [| item items IH]; intros out; cbn [validate_each].
  - intros Hv. inversion Hv. split; [reflexivity |]. intros i Hi. inversion Hi.
  - destruct (validate (Some s) item) as [x |] eqn:Ex; [| discriminate].
    destruct (validate_each s items) as [xs |]; [| discriminate].
    cbn [bind_result]. intros Hv. inversion Hv. subst out.
    destruct (IH xs eq_refl) as [Hl Hn]. split; [simpl; rewrite Hl; reflexivity |].
    intros [| i] Hi; [exact Ex |]. simpl in Hi. apply Hn. lia.
Qed.

Lemma validate_each_err (s : joi) (items : list value) (e : error) :
  validate_each s items = Err e ->
  exists before item after,
    items = before ++ item :: after /\
    validate (Some s) item = Err e /\
    Forall (fun earlier => is_ok (validate (Some s) earlier) = true) before.
Proof.
  induction items as [| item items IH]; cbn [validate_each]; [discriminate |].
  destruct (validate (Some s) item) as [x |] eqn:Ex.
  - cbn [bind_result]. destruct (validate_each s items) as [xs |]; [discriminate |].
    cbn [bind_result]. intros He. inversion He. subst.
    destruct (IH eq_refl) as [before [bad [after [Heq [Hbad Hall]]]]].
    exists (item :: before), bad, after. rewrite Heq. split; [reflexivity |].
    split; [exact Hbad |]. constructor; [rewrite Ex; reflexivity | exact Hall].
  - cbn [bind_result]. intros He. inversion He. subst.
    exists [], item, items. split; [reflexivity |]. split; [exact Ex | constructor].
Qed.

(** X18. Under a schema, an array is validated element by element: the
    result is an array of the same length whose element at each position is
    the validation of the element submitted there, and a rejection of the
    array is the rejection of its first element that does not pass. *)
Theorem validate_array_elementwise :
  forall (s : joi) (items : list value),
    match validate (Some s) (VArr items) with
    | Ok out =>
        exists validated,
          out = VArr validated /\
          List.length validated = List.length items /\
          forall i, (i < List.length items)%nat ->
            validate (Some s) (nth i items VUndefined) = Ok (nth i validated VUndefined)
    | Err e =>
        exists before item after,
          items = before ++ item :: after /\
          validate (Some s) item = Err e /\
          Forall (fun earlier => is_ok (validate (Some s) earlier) = true) before
    end.
Proof.
  intros s items. rewrite validate_array.
  destruct (validate_each s items) as [validated | e] eqn:Hv; cbn [bind_result].
  - exists validated. split; [reflexivity |]. apply validate_each_ok. exact Hv.
  - apply validate_each_err. exact Hv.
Qed.

(** ** Saving under a schema *)

(** X19. Under a schema, when the validation of a payload yields a record
    without [id] and the store generates one key for it, [save] inserts the
    validated record, fires the before-hook with it, and returns, and fires
    the after-hook with, the validated record with the key appended as its
    [id]. *)
Theorem save_under_schema_returns_sanitized :
  forall (conn : Type) (D : Driver conn) (namespace tableName : string) (s : joi)
         (params : value) (fields : list (string * value)) (w : world conn)
         (answer key : value) (c : conn),
    let name := (namespace ++ ".save")%string in
    let saved := VObj (fields ++ [("id", key)]) in
    validate (Some s) params = Ok (VObj fields) ->
    JS.lookup "id" fields = None ->
    NoDup (map fst fields) ->
    run (Insert (Table tableName) (VObj fields)) (connection w) = (Ok answer, c) ->
    JS.get answer "generated_keys" = Ok (VArr [key]) ->
    save namespace tableName (Some s) params w
    = (Ok saved,
       World c (trace w ++ [EmitBefore name (VObj fields);
                            Ran (Insert (Table tableName) (VObj fields));
                            EmitAfter name saved])).
Proof.
  intros conn D namespace tableName s params fields w answer key c name saved
         Hv Hid Hnd Hrun Hk.
  rewrite save_unfolded, Hv. fold name.
  rewrite doSave_without_id
    by (cbn [JS.get JS.own_props]; rewrite Hid; reflexivity).
  unfold doInsert, bind, lift, run_query, getTable. cbn [connection trace].
  rewrite Hrun. unfold inserted. rewrite Hk.
  cbn [bind_result List.length Nat.eqb JS.at_index nth].
  rewrite (with_id_appends fields key Hnd Hid). cbn [connection trace].
  rewrite <- !app_assoc. reflexivity.
Qed.

Lemma save_under_schema_returns_sanitized_witness :
  save "entity.User" "User" (Some Examples.userSchema) Examples.stored_john
       (MemStore.start Examples.one_user)
  = (Ok (VObj [("firstName", VStr "John"); ("lastName", VStr "Doe"); ("id", VStr "key-0")]),
     World (MemStore.MkDb
              [("User",
                MemStore.MkTable
                  [Examples.stored_john;
                   VObj [("firstName", VStr "John"); ("lastName", VStr "Doe");
                         ("id", VStr "key-0")]] [])] 1)
           [EmitBefore "entity.User.save" Examples.john;
            Ran (Insert (Table "User") Examples.john);
            EmitAfter "entity.User.save"
                      (VObj [("firstName", VStr "John"); ("lastName", VStr "Doe");
                             ("id", VStr "key-0")])]).
Proof.
  apply (save_under_schema_returns_sanitized MemStore.db MemStore.driver "entity.User" "User"
           Examples.userSchema Examples.stored_john
           [("firstName", VStr "John"); ("lastName", VStr "Doe")]
           (MemStore.start Examples.one_user)
           (VObj [("errors", VNum 0); ("inserted", VNum 1);
                  ("generated_keys", VArr [VStr "key-0"])])
           (VStr "key-0")
           (MemStore.MkDb
              [("User",
                MemStore.MkTable
                  [Examples.stored_john;
                   VObj [("firstName", VStr "John"); ("lastName", VStr "Doe");
                         ("id", VStr "key-0")]] [])] 1)).
  - reflexivity.
  - reflexivity.
  - repeat constructor; simpl; intuition discriminate.
  - reflexivity.
  - reflexivity.
Defined.
